(** * TorqProject: the numeric-estimate extraction of [main.py]

    A shallow embedding of [get_total_production_from_llm] (main.py, lines
    81-92: filter, emptiness test, [float], plausibility clamp) and of the
    arithmetic of [main] (lines 112-121), with the theorems that settle the
    claims of the specification; then of the handling of the API reply
    (lines 62-78) and of [main] from the typed line on (lines 97-121), with
    further properties of that code.

    Python values are modelled as the interpreter has them:
    - a [str] is a list of Unicode code points ([N]);
    - a [float] is an IEEE-754 binary64 number, a [spec_float] of the
      standard library with [prec = 53] and [emax = 1024];
    - an [int] is a [Z];
    - [print] appends a line to the standard output held in the [world];
    - a raised exception ends the call with [Raise]. *)

From Stdlib Require Import ZArith NArith PArith QArith List Bool Lia String Ascii.
From Stdlib Require Import SpecFloat.
Import ListNotations.

Close Scope Q_scope.
Open Scope Z_scope.

(** ** Python strings *)

Definition char := N.
Definition str := list char.

(** An ASCII literal as a [str]: one code point per byte. *)
Definition str_of (s : string) : str :=
  List.map N_of_ascii (list_ascii_of_string s).

Definition in_range (c : char) (r : N * N) : bool :=
  ((fst r <=? c) && (c <=? snd r))%N.

(** ** The Unicode database behind [str.isdigit] and [float]

    CPython 3.11 (Unicode 14.0).  [Nd_zeros] lists the code point of digit
    zero of every run of ten decimal digits (general category Nd); these are
    the characters with a decimal value ([Py_UNICODE_TODECIMAL]).
    [other_digits] lists the ranges whose Numeric_Type is Digit without being
    decimal (superscripts, subscripts, circled digits, ...): [str.isdigit]
    accepts them, [float] does not. *)
Module Unicode.

Definition Nd_zeros : list N :=
  [0x30; 0x660; 0x6f0; 0x7c0; 0x966; 0x9e6; 0xa66; 0xae6; 0xb66; 0xbe6;
   0xc66; 0xce6; 0xd66; 0xde6; 0xe50; 0xed0; 0xf20; 0x1040; 0x1090; 0x17e0;
   0x1810; 0x1946; 0x19d0; 0x1a80; 0x1a90; 0x1b50; 0x1bb0; 0x1c40; 0x1c50;
   0xa620; 0xa8d0; 0xa900; 0xa9d0; 0xa9f0; 0xaa50; 0xabf0; 0xff10; 0x104a0;
   0x10d30; 0x11066; 0x110f0; 0x11136; 0x111d0; 0x112f0; 0x11450; 0x114d0;
   0x11650; 0x116c0; 0x11730; 0x118e0; 0x11950; 0x11c50; 0x11d50; 0x11da0;
   0x16a60; 0x16ac0; 0x16b50;
   0x1d7ce; 0x1d7d8; 0x1d7e2; 0x1d7ec; 0x1d7f6;
   0x1e140; 0x1e2f0; 0x1e950; 0x1fbf0]%N.

Definition other_digits : list (N * N) :=
  [(0xb2, 0xb3); (0xb9, 0xb9); (0x1369, 0x1371); (0x19da, 0x19da);
   (0x2070, 0x2070); (0x2074, 0x2079); (0x2080, 0x2089); (0x2460, 0x2468);
   (0x2474, 0x247c); (0x2488, 0x2490); (0x24ea, 0x24ea); (0x24f5, 0x24fd);
   (0x24ff, 0x24ff); (0x2776, 0x277e); (0x2780, 0x2788); (0x278a, 0x2792);
   (0x10a40, 0x10a43); (0x10e60, 0x10e68); (0x11052, 0x1105a);
   (0x1f100, 0x1f10a)]%N.

(** The characters for which [str.isspace] holds. *)
Definition spaces : list (N * N) :=
  [(0x9, 0xd); (0x1c, 0x20); (0x85, 0x85); (0xa0, 0xa0); (0x1680, 0x1680);
   (0x2000, 0x200a); (0x2028, 0x2029); (0x202f, 0x202f); (0x205f, 0x205f);
   (0x3000, 0x3000)]%N.

(** [Py_UNICODE_TODECIMAL]: the decimal value of a character, if it has one. *)
Fixpoint decimal_in (zeros : list N) (c : char) : option N :=
  match zeros with
  | [] => None
  | z :: zeros' =>
      if in_range c (z, z + 9)%N then Some (c - z)%N else decimal_in zeros' c
  end.

Definition to_decimal (c : char) : option N := decimal_in Nd_zeros c.

Definition isdecimal (c : char) : bool :=
  match to_decimal c with Some _ => true | None => false end.

(** [x.isdigit()] for a one-character string [x]. *)
Definition isdigit (c : char) : bool :=
  isdecimal c || existsb (in_range c) other_digits.

Definition isspace (c : char) : bool := existsb (in_range c) spaces.

End Unicode.

(** The ASCII decimal digits ['0'] .. ['9'], as the specification names them. *)
Definition is_ascii_digit (c : char) : bool := in_range c (48, 57)%N.

Definition period : char := 46%N.

(** ** Python floats: binary64 *)

Definition prec : Z := 53.
Definition emax : Z := 1024.

Definition is_finite (f : spec_float) : bool :=
  match f with
  | S754_zero _ | S754_finite _ _ _ => true
  | S754_infinity _ | S754_nan => false
  end.

(** The rational number a finite float stands for, [m * 2 ^ e] with its sign;
    infinities and NaN are given 0 and are told apart by [is_finite]. *)
Definition F2Q (f : spec_float) : Q :=
  match f with
  | S754_finite s m (Zneg p) => Qmake (cond_Zopp s (Zpos m)) (2 ^ p)
  | S754_finite s m e => inject_Z (cond_Zopp s (Zpos m) * 2 ^ e)
  | _ => 0
  end.

(** [a > b] on floats: false as soon as one side is NaN. *)
Definition float_gt (a b : spec_float) : bool :=
  match SFcompare a b with Some Gt => true | _ => false end.

(** The quotient [n / d] of two integers, [0 <= n] and [0 < d], with sign
    [s], rounded to the nearest binary64 number, ties to even, as the IEEE
    division does it. *)
Definition round_quotient (s : bool) (n d : Z) : spec_float :=
  let '(q, e, l) := SFdiv_core_binary prec emax n 0 d 0 in
  binary_round_aux prec emax s q e l.

(** The float nearest to an integer, infinite beyond the float range. *)
Definition double_of_int (z : Z) : spec_float :=
  binary_normalize prec emax z 0 false.

(** ** The parser of [float(s)]

    CPython first rewrites the string ([_PyUnicode_TransformDecimalAndSpaceToASCII]):
    code points below 127 are kept, a space character becomes [' '], a
    character with a decimal value becomes the ASCII digit of that value, and
    at the first other character the copy stops with ['?'].  The rewritten
    text is then read by a correctly rounding [strtod] and must be consumed
    to its end.

    [strtod] below reads the grammar [digit* [ '.' digit* ]] with at least
    one digit.  Signs, exponents, underscores, surrounding blanks and the
    words inf and nan of the full grammar need characters that are neither
    digits nor periods; [numeric_str] of line 81 holds none (lemma
    [numeric_str_alphabet]), so those forms are left out and such a
    character is a parse failure here. *)
Module PyFloat.

Definition question_mark : char := 63%N.
Definition space : char := 32%N.

Fixpoint transform (s : str) : str :=
  match s with
  | [] => []
  | c :: s' =>
      if (c <? 127)%N then c :: transform s'
      else if Unicode.isspace c then space :: transform s'
      else match Unicode.to_decimal c with
           | Some d => (48 + d)%N :: transform s'
           | None => [question_mark]
           end
  end.

(** Reads a run of ASCII digits: the number read so far, how many digits
    were read, and the text that follows. *)
Fixpoint scan_digits (s : str) (acc : Z) (n : nat) : Z * nat * str :=
  match s with
  | c :: s' =>
      if is_ascii_digit c
      then scan_digits s' (10 * acc + (Z.of_N c - 48)) (S n)
      else (acc, n, s)
  | [] => (acc, n, [])
  end.

(** The digits of the literal as one integer and the number of digits after
    the period: the literal denotes [fst / 10 ^ snd]. *)
Definition strtod (s : str) : option (Z * nat) :=
  let '(i, ni, r1) := scan_digits s 0 0 in
  let '(m, nf, r2) :=
    match r1 with
    | c :: r => if (c =? period)%N then scan_digits r i 0 else (i, 0%nat, r1)
    | [] => (i, 0%nat, r1)
    end in
  match r2 with
  | [] => if (ni + nf =? 0)%nat then None else Some (m, nf)
  | _ :: _ => None
  end.

Definition of_decimal (m : Z) (nf : nat) : spec_float :=
  round_quotient false m (10 ^ Z.of_nat nf).

Definition float (s : str) : option spec_float :=
  match strtod (transform s) with
  | Some (m, nf) => Some (of_decimal m nf)
  | None => None
  end.

End PyFloat.

(** ** Numbers, exceptions, the world *)

Inductive pynum :=
| PyInt (z : Z)
| PyFloat (f : spec_float).

Inductive exn :=
| ValueError_no_numeric_value
    (* raise ValueError("LLM did not return a numeric value."), line 83 *)
| ValueError_float (s : str)
    (* float(): could not convert string to float: s, line 85 *)
| ZeroDivisionError
| OverflowError.

Inductive result (A : Type) :=
| Return (a : A)
| Raise (e : exn).
Arguments Return {A} a.
Arguments Raise {A} e.

(** What a call can see and change besides its arguments: the module global
    [api_key] (line 15) and the text printed so far. *)
Record world := { api_key : string; stdout : list string }.

Definition M (A : Type) := world -> result A * world.

Definition ret {A} (a : A) : M A := fun w => (Return a, w).
Definition raise {A} (e : exn) : M A := fun w => (Raise e, w).
Definition bind {A B} (m : M A) (k : A -> M B) : M B :=
  fun w => match m w with
           | (Return a, w') => k a w'
           | (Raise e, w') => (Raise e, w')
           end.
Definition print (line : string) : M unit :=
  fun w => (Return tt, {| api_key := api_key w; stdout := stdout w ++ [line] |}).

Notation "x <- m ;; k" := (bind m (fun x => k))
  (at level 61, m at next level, right associativity).
Notation "m ;;; k" := (bind m (fun _ => k))
  (at level 61, right associativity).

Definition lift {A} (r : result A) : M A := fun w => (r, w).

(** ** [get_total_production_from_llm], lines 81-92

    The request and the decoding of the response (lines 47-78) produce
    [llm_output]; the extraction starts from it. *)

Definition ceiling : Z := 500.
Definition fallback : Z := 145.

Definition warning : string :=
  "Warning: LLM output seems too high. Using 145 million tons as fallback.".

(** Line 81: [''.join(filter(lambda x: x.isdigit() or x == '.', llm_output))]. *)
Definition keep (x : char) : bool := Unicode.isdigit x || (x =? period)%N.

Definition numeric_str (llm_output : str) : str := List.filter keep llm_output.

(** Lines 82-92.  [if not numeric_str] is the test for the empty string.
    Line 88 compares the float with the int 500: CPython converts an int of
    that size to a float and compares the two floats.  Line 90 rebinds
    [total_value] to the int 145, which is what the call then returns. *)
Definition get_total_production_from_llm (llm_output : str) : M pynum :=
  let numeric_str := numeric_str llm_output in
  match numeric_str with
  | [] => raise ValueError_no_numeric_value
  | _ :: _ =>
      match PyFloat.float numeric_str with
      | None => raise (ValueError_float numeric_str)
      | Some total_value =>
          if float_gt total_value (double_of_int ceiling)
          then print warning ;;; ret (PyInt fallback)
          else ret (PyFloat total_value)
      end
  end.

(** The specification's [extract_estimate]: the outcome of the call. *)
Definition extract_estimate (raw_text : str) (w : world) : result pynum :=
  fst (get_total_production_from_llm raw_text w).

(** ** The arithmetic of [main], lines 112-121 *)

(** [float(i)] for an int operand of a float operation ([PyLong_AsDouble]):
    an int beyond the float range raises OverflowError. *)
Definition float_of_int (z : Z) : result spec_float :=
  let f := double_of_int z in
  if is_finite f then Return f else Raise OverflowError.

Definition is_zero (f : spec_float) : bool :=
  match f with S754_zero _ => true | _ => false end.

Definition as_float (a : pynum) : result spec_float :=
  match a with
  | PyInt z => float_of_int z
  | PyFloat f => Return f
  end.

(** [a * b]: exact on two ints, the float product otherwise. *)
Definition py_mul (a b : pynum) : result pynum :=
  match a, b with
  | PyInt x, PyInt y => Return (PyInt (x * y))
  | _, _ =>
      match as_float a, as_float b with
      | Return x, Return y => Return (PyFloat (SFmul prec emax x y))
      | Raise e, _ | _, Raise e => Raise e
      end
  end.

(** [a / b], true division: the correctly rounded quotient of two ints
    ([long_true_divide]), the float quotient otherwise; a zero divisor
    raises ZeroDivisionError. *)
Definition py_truediv (a b : pynum) : result pynum :=
  match a, b with
  | PyInt x, PyInt y =>
      if y =? 0 then Raise ZeroDivisionError
      else
        let q := round_quotient (xorb (x <? 0) (y <? 0)) (Z.abs x) (Z.abs y) in
        if is_finite q then Return (PyFloat q) else Raise OverflowError
  | _, _ =>
      match as_float a, as_float b with
      | Return x, Return y =>
          if is_zero y then Raise ZeroDivisionError
          else Return (PyFloat (SFdiv prec emax x y))
      | Raise e, _ | _, Raise e => Raise e
      end
  end.

(** Lines 120-121: the total in tons and the share of one centre. *)
Definition per_centre_production (total_production_million : pynum)
    (num_centres : Z) : result (pynum * pynum) :=
  match py_mul total_production_million (PyInt 1000000) with
  | Raise e => Raise e
  | Return total_production_tons =>
      match py_truediv total_production_tons (PyInt num_centres) with
      | Raise e => Raise e
      | Return per_centre => Return (total_production_tons, per_centre)
      end
  end.

Record summary := {
  total_production_million : pynum;
  total_production_tons : pynum;
  per_centre : pynum
}.

(** [main] from line 112 on.  The table lookups of lines 98-110 give
    [num_centres], the request gives [llm_output]; the summary printed by
    lines 124-131 is returned as a record.  With no centre the function
    prints its message and returns before the estimate is asked for. *)
Definition main (commod_name : string) (num_centres : Z) (llm_output : str)
  : M (option summary) :=
  if num_centres =? 0 then
    print (String.append "No centres found producing " commod_name) ;;; ret None
  else
    total <- get_total_production_from_llm llm_output ;;
    r <- lift (per_centre_production total num_centres) ;;
    ret (Some {| total_production_million := total;
                 total_production_tons := fst r;
                 per_centre := snd r |}).

(** The specification's [per_center]: the zero test of lines 112-114 and the
    arithmetic of lines 120-121, for a given estimate. *)
Inductive division_outcome :=
| ZeroCenters
| PerCenter (tons : pynum)
| DivisionRaised (e : exn).

Definition per_center (total_million_tons : pynum) (center_count : Z)
  : division_outcome :=
  if center_count =? 0 then ZeroCenters
  else match per_centre_production total_million_tons center_count with
       | Return r => PerCenter (snd r)
       | Raise e => DivisionRaised e
       end.

(** ** Vocabulary of the specification *)

(** The value of a number and whether it is finite. *)
Definition num_is_finite (x : pynum) : bool :=
  match x with PyInt _ => true | PyFloat f => is_finite f end.

Definition num_value (x : pynum) : Q :=
  match x with PyInt z => inject_Z z | PyFloat f => F2Q f end.

(** The specification's filter: ASCII decimal digits and the period. *)
Definition ascii_keep (c : char) : bool := is_ascii_digit c || (c =? period)%N.

Definition is_ascii (c : char) : bool := (c <? 128)%N.

(** A decimal literal: decimal digits around at most one period, with at
    least one digit. *)
Definition decimal (c : char) : Prop := Unicode.isdecimal c = true.

Definition valid_decimal_literal (s : str) : Prop :=
  (Forall decimal s /\ s <> []) \/
  (exists ip fp : str,
     Forall decimal ip /\ Forall decimal fp /\ ip ++ fp <> [] /\
     s = ip ++ period :: fp).

(** The number a run of decimal digits writes. *)
Definition digit_value (c : char) : Z :=
  match Unicode.to_decimal c with Some d => Z.of_N d | None => 0 end.

Definition digits_value (ds : str) : Z :=
  fold_left (fun acc c => 10 * acc + digit_value c) ds 0.

(** What a rounding to sign [s] can give: a zero, an infinity or a finite
    number of that sign whose mantissa fits [p] bits; never NaN. *)
Definition rounded (p : Z) (s : bool) (f : spec_float) : Prop :=
  match f with
  | S754_zero s' | S754_infinity s' => s' = s
  | S754_finite s' m _ => s' = s /\ Zpos m < 2 ^ p
  | S754_nan => False
  end.

(** Helpers of the parser's correctness statement: the ASCII digit a decimal
    character is rewritten to, one step of reading a number, and a text that
    does not go on with a digit. *)
Definition asc (c : char) : char :=
  match Unicode.to_decimal c with Some d => (48 + d)%N | None => 48%N end.

Definition step (acc : Z) (c : char) : Z := 10 * acc + digit_value c.

Definition stops (rest : str) : Prop :=
  match rest with
  | [] => True
  | c :: _ => is_ascii_digit c = false
  end.

(** A mantissa and an exponent in canonical position: the exponent is the
    one the format gives to a number of that magnitude. *)
Definition canonical (m e : Z) : Prop :=
  0 <= m /\ fexp prec emax (Zdigits2 m + e) = e.

(** A world to run the examples in. *)
Definition w0 : world := {| api_key := "sk-test"; stdout := [] |}.

Definition warned (w : world) : world :=
  {| api_key := api_key w; stdout := stdout w ++ [warning] |}.

(** ** The reply of the API, lines 62-78

    [requests.post] is the network: its [response] is an input here.  The
    decoded body, what [response.json()] returns, is a Python object built
    from JSON; a dict is the list of its items, with distinct keys in
    insertion order. *)

#[local] Unset Elimination Schemes.
Inductive json :=
| JNull
| JBool (b : bool)
| JInt (z : Z)
| JFloat (f : spec_float)
| JStr (s : str)
| JList (l : list json)
| JDict (d : list (str * json)).
#[local] Set Elimination Schemes.

(** [json_body] is [None] when [response.json()] raises JSONDecodeError. *)
Record response := {
  status_code : Z;
  text : str;
  json_body : option json
}.

Inductive pyexn :=
| Extraction (e : exn)
    (* the two ValueErrors of lines 83 and 85 *)
| ValueError_decoding_JSON
    (* raise ValueError("Error decoding JSON from API response"), line 69 *)
| ValueError_API_error (err : json)
    (* raise ValueError(f"OpenRouter API returned error: {err}"), line 72 *)
| ValueError_choices_not_found
    (* raise ValueError("'choices' not found in API response"), line 75 *)
| TypeError
| KeyError (key : json)
| IndexError
| AttributeError.

Inductive outcome (A : Type) :=
| Ok (a : A)
| Exc (e : pyexn).
Arguments Ok {A} a.
Arguments Exc {A} e.

Definition P (A : Type) := world -> outcome A * world.

Definition pret {A} (a : A) : P A := fun w => (Ok a, w).
Definition throw {A} (e : pyexn) : P A := fun w => (Exc e, w).
Definition pbind {A B} (m : P A) (k : A -> P B) : P B :=
  fun w => match m w with
           | (Ok a, w') => k a w'
           | (Exc e, w') => (Exc e, w')
           end.
Definition pure {A} (r : outcome A) : P A := fun w => (r, w).

(** A computation of the extraction, run inside the whole call. *)
Definition of_M {A} (m : M A) : P A :=
  fun w => match m w with
           | (Return a, w') => (Ok a, w')
           | (Raise e, w') => (Exc (Extraction e), w')
           end.

Notation "x <~ m ;; k" := (pbind m (fun x => k))
  (at level 61, m at next level, right associativity).
Notation "m ;;~ k" := (pbind m (fun _ => k))
  (at level 61, right associativity).

Fixpoint str_eqb (a b : str) : bool :=
  match a, b with
  | [], [] => true
  | x :: a', y :: b' => (x =? y)%N && str_eqb a' b'
  | _, _ => false
  end.

Fixpoint is_prefix (p s : str) : bool :=
  match p, s with
  | [], _ => true
  | x :: p', y :: s' => (x =? y)%N && is_prefix p' s'
  | _ :: _, [] => false
  end.

(** [p in s] on two strings: [p] occurs in [s]. *)
Fixpoint is_infix (p s : str) : bool :=
  is_prefix p s ||
  match s with
  | [] => false
  | _ :: s' => is_infix p s'
  end.

Fixpoint dict_get (d : list (str * json)) (key : str) : option json :=
  match d with
  | [] => None
  | (k, v) :: d' => if str_eqb k key then Some v else dict_get d' key
  end.

Definition is_str (v : json) (s : str) : bool :=
  match v with JStr s' => str_eqb s' s | _ => false end.

(** [key in v] for a string [key]: a key of a dict, an element of a list, a
    part of a string; the other values are not iterable. *)
Definition contains (key : str) (v : json) : outcome bool :=
  match v with
  | JDict d => Ok (match dict_get d key with Some _ => true | None => false end)
  | JList l => Ok (existsb (fun x => is_str x key) l)
  | JStr s => Ok (is_infix key s)
  | JNull | JBool _ | JInt _ | JFloat _ => Exc TypeError
  end.

(** [v[key]] for a string [key]: lists and strings want integer indices, the
    scalars have no subscript. *)
Definition getitem (v : json) (key : str) : outcome json :=
  match v with
  | JDict d =>
      match dict_get d key with
      | Some x => Ok x
      | None => Exc (KeyError (JStr key))
      end
  | _ => Exc TypeError
  end.

(** [v[0]]. *)
Definition getitem_0 (v : json) : outcome json :=
  match v with
  | JList (x :: _) => Ok x
  | JList [] => Exc IndexError
  | JStr (c :: _) => Ok (JStr [c])
  | JStr [] => Exc IndexError
  | JDict _ => Exc (KeyError (JInt 0))
  | JNull | JBool _ | JInt _ | JFloat _ => Exc TypeError
  end.

(** What iterating over a value yields: the characters of a string, the
    elements of a list, the keys of a dict. *)
Definition iterate (v : json) : outcome (list json) :=
  match v with
  | JStr s => Ok (List.map (fun c => JStr [c]) s)
  | JList l => Ok l
  | JDict d => Ok (List.map (fun kv => JStr (fst kv)) d)
  | JNull | JBool _ | JInt _ | JFloat _ => Exc TypeError
  end.

(** [s.isdigit()] for a string of any length. *)
Definition str_isdigit (s : str) : bool :=
  match s with
  | [] => false
  | _ :: _ => forallb Unicode.isdigit s
  end.

(** The lambda of line 81 on one item: only a string has [isdigit]. *)
Definition keep_item (x : json) : outcome bool :=
  match x with
  | JStr s => Ok (str_isdigit s || str_eqb s [period])
  | _ => Exc AttributeError
  end.

(** [filter(keep_item, items)]: the first item the lambda fails on ends the
    call. *)
Fixpoint filter_items (items : list json) : outcome (list json) :=
  match items with
  | [] => Ok []
  | x :: items' =>
      match keep_item x with
      | Exc e => Exc e
      | Ok b =>
          match filter_items items' with
          | Exc e => Exc e
          | Ok rest => Ok (if b then x :: rest else rest)
          end
      end
  end.

(** [''.join(items)]: every item has to be a string. *)
Fixpoint join (items : list json) : outcome str :=
  match items with
  | [] => Ok []
  | JStr s :: items' =>
      match join items' with
      | Exc e => Exc e
      | Ok rest => Ok (s ++ rest)
      end
  | _ :: _ => Exc TypeError
  end.

(** Lines 82-92 for a given [numeric_str]. *)
Definition estimate_of (numeric_str : str) : M pynum :=
  match numeric_str with
  | [] => raise ValueError_no_numeric_value
  | _ :: _ =>
      match PyFloat.float numeric_str with
      | None => raise (ValueError_float numeric_str)
      | Some total_value =>
          if float_gt total_value (double_of_int ceiling)
          then print warning ;;; ret (PyInt fallback)
          else ret (PyFloat total_value)
      end
  end.

Section Call.

(** The text [print] writes for a value: [str()] of it as the standard
    output shows it. *)
Variable to_text : json -> string.

Definition print_value (label : string) (v : json) : P unit :=
  of_M (print (String.append label (String.append " " (to_text v)))).

(** [get_total_production_from_llm] from line 63 on, with the [response] of
    line 62. *)
Definition get_total_production_from_llm_response (response : response)
  : P pynum :=
  print_value "API Status Code:" (JInt (status_code response)) ;;~
  print_value "API Response Text:" (JStr (text response)) ;;~
  response_json <~ match json_body response with
                   | Some j => pret j
                   | None => throw ValueError_decoding_JSON
                   end ;;
  has_error <~ pure (contains (str_of "error") response_json) ;;
  if has_error then
    err <~ pure (getitem response_json (str_of "error")) ;;
    throw (ValueError_API_error err)
  else
    has_choices <~ pure (contains (str_of "choices") response_json) ;;
    if negb has_choices then throw ValueError_choices_not_found
    else
      choices <~ pure (getitem response_json (str_of "choices")) ;;
      choice <~ pure (getitem_0 choices) ;;
      message <~ pure (getitem choice (str_of "message")) ;;
      llm_output <~ pure (getitem message (str_of "content")) ;;
      print_value "Raw LLM output:" llm_output ;;~
      items <~ pure (iterate llm_output) ;;
      kept <~ pure (filter_items items) ;;
      numeric_str <~ pure (join kept) ;;
      of_M (estimate_of numeric_str).

End Call.

(** The world after some more lines were printed. *)
Definition logged (w : world) (lines : list string) : world :=
  {| api_key := api_key w; stdout := stdout w ++ lines |}.

(** The lines every call prints first: the status code and the body. *)
Definition preamble (to_text : json -> string) (r : response) : list string :=
  [String.append "API Status Code:"
     (String.append " " (to_text (JInt (status_code r))));
   String.append "API Response Text:"
     (String.append " " (to_text (JStr (text r))))].

Definition raw_output_line (to_text : json -> string) (v : json) : string :=
  String.append "Raw LLM output:" (String.append " " (to_text v)).

(** A value that is no dict, list or string. *)
Definition is_scalar (v : json) : bool :=
  match v with
  | JNull | JBool _ | JInt _ | JFloat _ => true
  | JStr _ | JList _ | JDict _ => false
  end.

Definition is_dict (v : json) : bool :=
  match v with JDict _ => true | _ => false end.

(** A text rendering for the examples: it tells the kinds of values apart
    and shows nothing else. *)
Definition kind_text (v : json) : string :=
  match v with
  | JNull => "None"
  | JBool true => "True"
  | JBool false => "False"
  | JInt _ => "<int>"
  | JFloat _ => "<float>"
  | JStr _ => "<str>"
  | JList _ => "<list>"
  | JDict _ => "<dict>"
  end.

(** A reply of the usual shape, with the given content. *)
Definition reply (status : Z) (content : json) : response :=
  {| status_code := status;
     text := [];
     json_body :=
       Some (JDict
               [(str_of "id", JStr (str_of "gen-1"));
                (str_of "choices",
                 JList [JDict [(str_of "message",
                                JDict [(str_of "role", JStr (str_of "assistant"));
                                       (str_of "content", content)])]])]) |}.

(** A non-negative finite float of magnitude below [2 ^ G]. *)
Definition finite_below (G : Z) (f : spec_float) : Prop :=
  match f with
  | S754_zero s => s = false
  | S754_finite s m e => s = false /\ Zpos (digits2_pos m) + e <= G
  | S754_infinity _ | S754_nan => False
  end.

(** ** [main], lines 97-121, from the typed line on

    The two sheets are the tables the module builds at lines 29-41, with
    the columns [main] reads; ['HS Code'] is numeric after [pd.to_numeric],
    and [code_eq] is the equality of two such numbers (which a NaN does not
    satisfy with itself).  [lower] is [str.lower].  The prompt of [input] is
    not recorded in the printed lines. *)

(** [s.strip()]: without the white space at both ends. *)
Fixpoint lstrip (s : str) : str :=
  match s with
  | [] => []
  | c :: s' => if Unicode.isspace c then lstrip s' else s
  end.

Definition strip (s : str) : str := rev (lstrip (rev (lstrip s))).

Record commod_row (code : Type) := {
  Name : str;
  commod_HS_Code : code
}.
Arguments Name {code} _.
Arguments commod_HS_Code {code} _.

Record centre_row (code : Type) := {
  centre_HS_Code : code;
  Centers : code
}.
Arguments centre_HS_Code {code} _.
Arguments Centers {code} _.

Section Run.

Variable to_text : json -> string.
Variable lower : str -> str.
Variable code : Type.
Variable code_eq : code -> code -> bool.

Definition main_run (line : str) (df_commods : list (commod_row code))
    (df_centres : list (centre_row code)) (response : response)
  : P (option summary) :=
  let commod_name := lower (strip line) in
  let hs_row :=
    List.filter (fun row => str_eqb (lower (Name row)) commod_name) df_commods in
  match hs_row with
  | [] =>
      of_M (print (String.append "Commod '"
                     (String.append (to_text (JStr commod_name))
                                    "' not found in Sheet 2"))) ;;~
      pret None
  | row :: _ =>
      let hs_code := commod_HS_Code row in
      let df_filtered :=
        List.filter (fun c => code_eq (centre_HS_Code c) hs_code) df_centres in
      let num_centres := Z.of_nat (List.length df_filtered) in
      if num_centres =? 0 then
        of_M (print (String.append "No centres found producing "
                       (to_text (JStr commod_name)))) ;;~
        pret None
      else
        total <~ get_total_production_from_llm_response to_text response ;;
        r <~ of_M (lift (per_centre_production total num_centres)) ;;
        pret (Some {| total_production_million := total;
                      total_production_tons := fst r;
                      per_centre := snd r |})
  end.

End Run.

(** ASCII lower case, a [lower] for the examples. *)
Definition ascii_lower (s : str) : str :=
  List.map (fun c => if in_range c (65, 90)%N then (c + 32)%N else c) s.

(** Two small sheets for the examples: rice has the code 1006 and two
    centres. *)
Definition sheet2 : list (commod_row Z) :=
  [{| Name := str_of "Wheat"; commod_HS_Code := 1001 |};
   {| Name := str_of "RICE"; commod_HS_Code := 1006 |}].

Definition sheet1 : list (centre_row Z) :=
  [{| centre_HS_Code := 1006; Centers := 1 |};
   {| centre_HS_Code := 1001; Centers := 2 |};
   {| centre_HS_Code := 1006; Centers := 3 |}].

(** * Theorems *)

(** ** Rounding: what [binary_round_aux] can return *)

Section RoundingBounds.
Variables p emx : Z.
Hypothesis p_nonneg : 0 <= p.

Lemma digits2_pos_size (n : positive) : digits2_pos n = Pos.size n.
Proof. induction n; simpl; congruence. Qed.

Lemma Zdigits2_nonneg (z : Z) : 0 <= Zdigits2 z.
Proof. destruct z; simpl; lia. Qed.

Lemma Zdigits2_gt (z : Z) : 0 <= z -> z < 2 ^ Zdigits2 z.
Proof.
  destruct z as [|n|n]; simpl; intros H; try lia.
  rewrite digits2_pos_size.
  pose proof (Pos.size_gt n) as Hn.
  apply Pos2Z.pos_lt_pos in Hn. rewrite Pos2Z.inj_pow in Hn. exact Hn.
Qed.

Lemma shr_1_digits (s : shr_record) :
  0 <= shr_m s ->
  0 <= shr_m (shr_1 s) /\
  Zdigits2 (shr_m (shr_1 s)) = Z.max 0 (Zdigits2 (shr_m s) - 1).
Proof.
  destruct s as [m r t]; simpl.
  destruct m as [|[n|n|]|n]; cbn [shr_1 shr_m Zdigits2 digits2_pos]; lia.
Qed.

Lemma iter_shr_1_digits (n : positive) : forall s : shr_record,
  0 <= shr_m s ->
  0 <= shr_m (iter_pos shr_1 n s) /\
  Zdigits2 (shr_m (iter_pos shr_1 n s)) = Z.max 0 (Zdigits2 (shr_m s) - Zpos n).
Proof.
  induction n as [n IH|n IH|]; intros s Hs; simpl.
  - destruct (shr_1_digits s Hs) as [H1 E1].
    destruct (IH _ H1) as [H2 E2].
    destruct (IH _ H2) as [H3 E3].
    split; [exact H3|]. rewrite E3, E2, E1. lia.
  - destruct (IH _ Hs) as [H2 E2].
    destruct (IH _ H2) as [H3 E3].
    split; [exact H3|]. rewrite E3, E2. lia.
  - apply shr_1_digits; exact Hs.
Qed.

Lemma shr_m_of_loc (m : Z) (l : location) : shr_m (shr_record_of_loc m l) = m.
Proof. destruct l as [|[]]; reflexivity. Qed.

Lemma fexp_ge (x : Z) : x - p <= fexp p emx x.
Proof. unfold fexp. lia. Qed.

Lemma shr_fexp_digits (m e : Z) (l : location) :
  0 <= m ->
  0 <= shr_m (fst (shr_fexp p emx m e l)) /\
  Zdigits2 (shr_m (fst (shr_fexp p emx m e l))) <= p.
Proof.
  intros Hm. unfold shr_fexp, shr.
  pose proof (fexp_ge (Zdigits2 m + e)) as Hf.
  destruct (fexp p emx (Zdigits2 m + e) - e) as [|n|n] eqn:En; simpl.
  - rewrite shr_m_of_loc. lia.
  - destruct (iter_shr_1_digits n (shr_record_of_loc m l)) as [H E].
    + rewrite shr_m_of_loc; exact Hm.
    + split; [exact H|]. rewrite E, shr_m_of_loc. lia.
  - rewrite shr_m_of_loc. lia.
Qed.

Lemma round_nearest_even_nonneg (m : Z) (l : location) :
  0 <= m -> 0 <= round_nearest_even m l.
Proof.
  intros Hm. destruct l as [|[]]; simpl; try lia.
  destruct (Z.even m); lia.
Qed.

Lemma binary_round_aux_rounded (s : bool) (mx ex : Z) (lx : location) :
  0 <= mx -> rounded p s (binary_round_aux p emx s mx ex lx).
Proof.
  intros Hmx. unfold binary_round_aux.
  destruct (shr_fexp_digits mx ex lx Hmx) as [H1 _].
  destruct (shr_fexp p emx mx ex lx) as [mrs1 e1]; simpl in H1.
  pose proof (round_nearest_even_nonneg (shr_m mrs1) (loc_of_shr_record mrs1) H1)
    as H2.
  destruct (shr_fexp_digits
              (round_nearest_even (shr_m mrs1) (loc_of_shr_record mrs1))
              e1 loc_Exact H2) as [H3 D3].
  destruct (shr_fexp p emx _ e1 loc_Exact) as [mrs2 e2]; simpl in H3, D3.
  destruct (shr_m mrs2) as [|m|m] eqn:Em; simpl; try lia.
  - reflexivity.
  - destruct (e2 <=? emx - p); simpl; [|reflexivity].
    split; [reflexivity|].
    pose proof (Zdigits2_gt (Zpos m) ltac:(lia)) as Hlt.
    eapply Z.lt_le_trans; [exact Hlt|].
    apply Z.pow_le_mono_r; lia.
Qed.

End RoundingBounds.

(** ** The Unicode tables *)

Lemma in_range_spec (c : char) (lo hi : N) :
  in_range c (lo, hi) = true <-> (lo <= c <= hi)%N.
Proof.
  unfold in_range; simpl. rewrite andb_true_iff, !N.leb_le. tauto.
Qed.

Lemma decimal_in_Some (zs : list N) (c : char) (d : N) :
  Unicode.decimal_in zs c = Some d ->
  exists z, In z zs /\ (z <= c <= z + 9)%N /\ d = (c - z)%N.
Proof.
  induction zs as [|z zs IH]; simpl; [discriminate|].
  destruct (in_range c (z, (z + 9)%N)) eqn:E.
  - intros [= <-]. apply in_range_spec in E. exists z. auto.
  - intros H. destruct (IH H) as (z' & Hin & Hz). exists z'. auto.
Qed.

Lemma to_decimal_le_9 (c : char) (d : N) :
  Unicode.to_decimal c = Some d -> (d <= 9)%N.
Proof.
  intros H. apply decimal_in_Some in H. destruct H as (z & _ & Hz & ->). lia.
Qed.

Lemma to_decimal_ascii_digit (c : char) :
  is_ascii_digit c = true -> Unicode.to_decimal c = Some (c - 48)%N.
Proof.
  intros H. unfold Unicode.to_decimal, Unicode.Nd_zeros.
  cbn [Unicode.decimal_in].
  change (48 + 9)%N with 57%N. unfold is_ascii_digit in H. rewrite H. reflexivity.
Qed.

Lemma Nd_zeros_ascii :
  forallb (fun z => (z =? 48)%N || (127 <=? z)%N) Unicode.Nd_zeros = true.
Proof. vm_compute. reflexivity. Qed.

Lemma to_decimal_below_127 (c : char) (d : N) :
  (c < 127)%N -> Unicode.to_decimal c = Some d ->
  is_ascii_digit c = true /\ d = (c - 48)%N.
Proof.
  intros Hc H. apply decimal_in_Some in H. destruct H as (z & Hin & Hz & ->).
  pose proof (proj1 (forallb_forall _ _) Nd_zeros_ascii z Hin) as Hz'.
  simpl in Hz'. apply orb_true_iff in Hz'.
  rewrite N.eqb_eq, N.leb_le in Hz'.
  destruct Hz' as [-> | Hz']; [|lia].
  split; [|reflexivity]. apply in_range_spec. lia.
Qed.

Lemma spaces_not_decimal :
  forallb (fun z => forallb (fun r => (snd r <? z)%N || (z + 9 <? fst r)%N)
                      Unicode.spaces) Unicode.Nd_zeros = true.
Proof. vm_compute. reflexivity. Qed.

Lemma isspace_not_decimal (c : char) :
  Unicode.isspace c = true -> Unicode.to_decimal c = None.
Proof.
  intros Hs. destruct (Unicode.to_decimal c) as [d|] eqn:E; [|reflexivity].
  exfalso. apply decimal_in_Some in E. destruct E as (z & Hin & Hz & _).
  unfold Unicode.isspace in Hs. apply existsb_exists in Hs.
  destruct Hs as ([lo hi] & Hr & Hc). apply in_range_spec in Hc.
  pose proof (proj1 (forallb_forall _ _) spaces_not_decimal z Hin) as H1.
  cbv beta in H1.
  pose proof (proj1 (forallb_forall _ _) H1 (lo, hi) Hr) as H2.
  simpl in H2. apply orb_true_iff in H2. rewrite !N.ltb_lt in H2. lia.
Qed.

(** ** The parser *)

Lemma asc_digit (c : char) : decimal c -> is_ascii_digit (asc c) = true.
Proof.
  unfold decimal, Unicode.isdecimal, asc.
  destruct (Unicode.to_decimal c) as [d|] eqn:E; [|discriminate].
  intros _. apply to_decimal_le_9 in E. apply in_range_spec. lia.
Qed.

Lemma asc_value (c : char) : decimal c -> Z.of_N (asc c) - 48 = digit_value c.
Proof.
  unfold decimal, Unicode.isdecimal, asc, digit_value.
  destruct (Unicode.to_decimal c) as [d|] eqn:E; [|discriminate].
  intros _. lia.
Qed.

Lemma transform_decimal (c : char) (s : str) :
  decimal c -> PyFloat.transform (c :: s) = asc c :: PyFloat.transform s.
Proof.
  intros Hc. pose proof Hc as Hd.
  unfold decimal, Unicode.isdecimal in Hd. unfold asc. cbn [PyFloat.transform].
  destruct (Unicode.to_decimal c) as [d|] eqn:E; [|discriminate].
  destruct (c <? 127)%N eqn:Elt.
  - apply N.ltb_lt in Elt.
    destruct (to_decimal_below_127 c d Elt E) as [Hr ->].
    apply in_range_spec in Hr. f_equal. lia.
  - destruct (Unicode.isspace c) eqn:Es.
    + apply isspace_not_decimal in Es. congruence.
    + reflexivity.
Qed.

Lemma transform_period (s : str) :
  PyFloat.transform (period :: s) = period :: PyFloat.transform s.
Proof. reflexivity. Qed.

Lemma transform_decimals (ds rest : str) :
  Forall decimal ds ->
  PyFloat.transform (ds ++ rest) = List.map asc ds ++ PyFloat.transform rest.
Proof.
  induction 1 as [|c ds Hc _ IH]; [reflexivity|].
  rewrite <- app_comm_cons, transform_decimal by exact Hc.
  simpl. rewrite IH. reflexivity.
Qed.

Lemma scan_digits_decimals (ds rest : str) :
  Forall decimal ds -> stops rest ->
  forall acc n,
    PyFloat.scan_digits (List.map asc ds ++ rest) acc n
    = (fold_left step ds acc, (n + List.length ds)%nat, rest).
Proof.
  intros Hds Hrest. induction Hds as [|c ds Hc _ IH]; intros acc n.
  - simpl. rewrite Nat.add_0_r.
    destruct rest as [|c r]; simpl in *; [reflexivity|]. rewrite Hrest. reflexivity.
  - simpl. rewrite (asc_digit c Hc), IH, (asc_value c Hc).
    unfold step at 2. f_equal. f_equal. lia.
Qed.

Lemma float_literal (ip fp : str) :
  Forall decimal ip -> Forall decimal fp -> ip ++ fp <> [] ->
  PyFloat.float (ip ++ period :: fp)
  = Some (PyFloat.of_decimal (digits_value (ip ++ fp)) (List.length fp)).
Proof.
  intros Hip Hfp Hne. unfold PyFloat.float, PyFloat.strtod.
  rewrite (transform_decimals ip (period :: fp) Hip), transform_period.
  rewrite <- (app_nil_r fp) at 1. rewrite (transform_decimals fp [] Hfp). simpl PyFloat.transform.
  rewrite (scan_digits_decimals ip _ Hip) by reflexivity.
  rewrite N.eqb_refl.
  rewrite (scan_digits_decimals fp [] Hfp) by exact I.
  simpl. 
  destruct (List.length ip + List.length fp =? 0)%nat eqn:E.
  - apply Nat.eqb_eq in E. rewrite <- length_app in E.
    apply length_zero_iff_nil in E. contradiction.
  - unfold digits_value. rewrite fold_left_app. reflexivity.
Qed.

Lemma float_integer (ip : str) :
  Forall decimal ip -> ip <> [] ->
  PyFloat.float ip = Some (PyFloat.of_decimal (digits_value ip) 0).
Proof.
  intros Hip Hne. unfold PyFloat.float, PyFloat.strtod.
  rewrite <- (app_nil_r ip) at 1. rewrite (transform_decimals ip [] Hip).
  simpl PyFloat.transform.
  rewrite (scan_digits_decimals ip [] Hip) by exact I.
  simpl. destruct (List.length ip + 0 =? 0)%nat eqn:E.
  - apply Nat.eqb_eq in E. rewrite Nat.add_0_r in E.
    apply length_zero_iff_nil in E. contradiction.
  - reflexivity.
Qed.

Lemma cons_eq_inv {A : Type} (a b : A) (l l' : list A) :
  a :: l = b :: l' -> a = b /\ l = l'.
Proof. intros H. inversion H. auto. Qed.

Lemma scan_digits_split (s : str) : forall acc n,
  exists ds rest v,
    s = ds ++ rest /\ Forall (fun c => is_ascii_digit c = true) ds /\ stops rest /\
    PyFloat.scan_digits s acc n = (v, (n + List.length ds)%nat, rest).
Proof.
  induction s as [|c s IH]; intros acc n.
  - exists [], [], acc. simpl. rewrite Nat.add_0_r. auto.
  - cbn [PyFloat.scan_digits]. destruct (is_ascii_digit c) eqn:E.
    + destruct (IH (10 * acc + (Z.of_N c - 48)) (S n)) as (ds & rest & v & -> & Hds & Hst & Hsc).
      exists (c :: ds), rest, v. rewrite Hsc. simpl.
      repeat split; auto. f_equal. f_equal. lia.
    + exists [], (c :: s), acc. simpl. rewrite Nat.add_0_r. auto.
Qed.

Lemma transform_digits_inv (ds : str) : forall s rest,
  PyFloat.transform s = ds ++ rest ->
  Forall (fun c => is_ascii_digit c = true) ds ->
  exists ip s',
    s = ip ++ s' /\ Forall decimal ip /\ List.length ip = List.length ds /\
    PyFloat.transform s' = rest.
Proof.
  induction ds as [|d ds IH]; intros s rest Ht Hds.
  - exists [], s. simpl. auto.
  - inversion Hds as [|? ? Hd Hds']; subst.
    destruct s as [|c s]; [discriminate|].
    assert (Hc : decimal c /\ PyFloat.transform s = ds ++ rest).
    { cbn [PyFloat.transform] in Ht. unfold decimal, Unicode.isdecimal.
      destruct (c <? 127)%N.
      - injection Ht as -> Ht. rewrite (to_decimal_ascii_digit d Hd). auto.
      - destruct (Unicode.isspace c).
        + injection Ht as <- _. discriminate Hd.
        + destruct (Unicode.to_decimal c) as [k|].
          * injection Ht as _ Ht. auto.
          * injection Ht as <- _. discriminate Hd. }
    destruct Hc as [Hc Ht'].
    destruct (IH s rest Ht' Hds') as (ip & s' & -> & Hip & Hlen & Hs').
    exists (c :: ip), s'. simpl. repeat split; auto.
Qed.

Lemma transform_nil_inv (s : str) : PyFloat.transform s = [] -> s = [].
Proof.
  destruct s as [|c s]; [reflexivity|]. cbn [PyFloat.transform].
  destruct (c <? 127)%N; [discriminate|].
  destruct (Unicode.isspace c); [discriminate|].
  destruct (Unicode.to_decimal c); discriminate.
Qed.

Lemma transform_period_inv (s rest : str) :
  PyFloat.transform s = period :: rest ->
  exists s', s = period :: s' /\ PyFloat.transform s' = rest.
Proof.
  destruct s as [|c s]; [discriminate|]. cbn [PyFloat.transform].
  destruct (c <? 127)%N.
  - intros [= -> Ht]. exists s. auto.
  - destruct (Unicode.isspace c); [discriminate|].
    destruct (Unicode.to_decimal c) as [k|] eqn:E; [|discriminate].
    intros Ht. apply cons_eq_inv in Ht. destruct Ht as [Hk _].
    unfold period, char in Hk. lia.
Qed.

Lemma strtod_Some_shape (t : str) (r : Z * nat) :
  PyFloat.strtod t = Some r ->
  exists ds1 ds2,
    Forall (fun c => is_ascii_digit c = true) ds1 /\
    Forall (fun c => is_ascii_digit c = true) ds2 /\
    ((t = ds1 /\ ds1 <> []) \/ (t = ds1 ++ period :: ds2 /\ ds1 ++ ds2 <> [])).
Proof.
  unfold PyFloat.strtod.
  destruct (scan_digits_split t 0 0) as (ds1 & r1 & v1 & -> & Hds1 & Hst1 & ->).
  destruct r1 as [|c r1].
  - simpl. destruct (List.length ds1 + 0 =? 0)%nat eqn:E; [discriminate|].
    intros _. exists ds1, []. rewrite !app_nil_r.
    split; [exact Hds1|]. split; [constructor|]. left. split; [reflexivity|].
    intros ->. discriminate E.
  - destruct (c =? period)%N eqn:Ec.
    + apply N.eqb_eq in Ec. subst c.
      destruct (scan_digits_split r1 v1 0) as (ds2 & r2 & v2 & -> & Hds2 & Hst2 & ->).
      destruct r2 as [|c2 r2]; [|discriminate].
      simpl. destruct (List.length ds1 + List.length ds2 =? 0)%nat eqn:E; [discriminate|].
      intros _. exists ds1, ds2. rewrite app_nil_r.
      split; [exact Hds1|]. split; [exact Hds2|]. right. split; [reflexivity|].
      intros Hnil. rewrite <- length_app, Hnil in E. discriminate E.
    + discriminate.
Qed.

Lemma float_Some_valid (s : str) (v : spec_float) :
  PyFloat.float s = Some v -> valid_decimal_literal s.
Proof.
  unfold PyFloat.float.
  destruct (PyFloat.strtod (PyFloat.transform s)) as [r|] eqn:E; [|discriminate].
  intros _. apply strtod_Some_shape in E.
  destruct E as (ds1 & ds2 & H1 & H2 & [[Ht Hne] | [Ht Hne]]).
  - rewrite <- (app_nil_r ds1) in Ht.
    destruct (transform_digits_inv ds1 s [] Ht H1) as (ip & s' & -> & Hip & Hlen & Hs').
    apply transform_nil_inv in Hs'. subst s'.
    left. rewrite app_nil_r. split; [exact Hip|].
    intros ->. destruct ds1; [|discriminate]. apply Hne; reflexivity.
  - destruct (transform_digits_inv ds1 s _ Ht H1) as (ip & s' & -> & Hip & Hlen & Hs').
    apply transform_period_inv in Hs'. destruct Hs' as (s2 & -> & Hs2).
    rewrite <- (app_nil_r ds2) in Hs2.
    destruct (transform_digits_inv ds2 s2 [] Hs2 H2) as (fp & s3 & -> & Hfp & Hlen2 & Hs3).
    apply transform_nil_inv in Hs3. subst s3.
    right. exists ip, fp. rewrite !app_nil_r. repeat split; auto.
    intros Hnil. apply Hne.
    apply length_zero_iff_nil. apply (f_equal (@List.length char)) in Hnil.
    rewrite length_app in *. simpl in Hnil. lia.
Qed.

Lemma float_valid_iff (s : str) :
  valid_decimal_literal s <-> exists v, PyFloat.float s = Some v.
Proof.
  split.
  - intros [[Hs Hne] | (ip & fp & Hip & Hfp & Hne & ->)]; eexists.
    + apply float_integer; assumption.
    + apply float_literal; assumption.
  - intros [v Hv]. exact (float_Some_valid s v Hv).
Qed.

Lemma float_None_invalid (s : str) :
  PyFloat.float s = None <-> ~ valid_decimal_literal s.
Proof.
  rewrite float_valid_iff. split.
  - intros H [v Hv]. congruence.
  - intros H. destruct (PyFloat.float s) as [v|] eqn:E; [|reflexivity].
    exfalso. apply H. exists v. reflexivity.
Qed.

(** ** The filter of line 81 *)

Lemma numeric_str_alphabet (raw : str) :
  Forall (fun c => keep c = true) (numeric_str raw).
Proof.
  apply Forall_forall. intros c Hc. apply filter_In in Hc. tauto.
Qed.

Lemma numeric_str_app (a b : str) :
  numeric_str (a ++ b) = numeric_str a ++ numeric_str b.
Proof. apply filter_app. Qed.

Lemma numeric_str_dropped (sep : str) :
  Forall (fun c => keep c = false) sep -> numeric_str sep = [].
Proof.
  induction 1 as [|c sep Hc _ IH]; [reflexivity|].
  unfold numeric_str in *. simpl. rewrite Hc. exact IH.
Qed.

Lemma numeric_str_kept (s : str) :
  Forall (fun c => keep c = true) s -> numeric_str s = s.
Proof.
  induction 1 as [|c s Hc _ IH]; [reflexivity|].
  unfold numeric_str in *. simpl. rewrite Hc, IH. reflexivity.
Qed.

Lemma numeric_str_In (raw : str) (c : char) :
  In c (numeric_str raw) <-> In c raw /\ keep c = true.
Proof. apply filter_In. Qed.

Lemma keep_ascii (c : char) : is_ascii c = true -> keep c = ascii_keep c.
Proof.
  intros Hc. unfold keep, ascii_keep. f_equal.
  unfold is_ascii in Hc. apply N.ltb_lt in Hc.
  unfold Unicode.isdigit, Unicode.isdecimal.
  destruct (is_ascii_digit c) eqn:Ed.
  - rewrite (to_decimal_ascii_digit c Ed). reflexivity.
  - destruct (Unicode.to_decimal c) as [d|] eqn:E.
    + assert (Hlt : (c < 127)%N \/ c = 127%N) by lia.
      destruct Hlt as [Hlt | ->]; [|vm_compute in E; discriminate].
      destruct (to_decimal_below_127 c d Hlt E). congruence.
    + rewrite orb_false_l. apply not_true_is_false. intros Hex.
      apply existsb_exists in Hex. destruct Hex as ([lo hi] & Hin & Hr).
      apply in_range_spec in Hr.
      assert (Hlo : (178 <= lo)%N).
      { revert Hin. clear. unfold Unicode.other_digits. simpl.
        intros H. repeat (destruct H as [H | H]; [injection H as <- <-; lia|]).
        contradiction. }
      lia.
Qed.

(** ** The four ways the call ends *)

Lemma run_empty (raw : str) (w : world) :
  numeric_str raw = [] ->
  get_total_production_from_llm raw w = (Raise ValueError_no_numeric_value, w).
Proof. intros H. unfold get_total_production_from_llm. rewrite H. reflexivity. Qed.

Lemma run_malformed (raw : str) (w : world) :
  numeric_str raw <> [] -> PyFloat.float (numeric_str raw) = None ->
  get_total_production_from_llm raw w
  = (Raise (ValueError_float (numeric_str raw)), w).
Proof.
  intros Hne H. unfold get_total_production_from_llm.
  destruct (numeric_str raw) as [|c s]; [contradiction|].
  rewrite H. reflexivity.
Qed.

Lemma run_clamped (raw : str) (w : world) (v : spec_float) :
  PyFloat.float (numeric_str raw) = Some v ->
  float_gt v (double_of_int ceiling) = true ->
  get_total_production_from_llm raw w = (Return (PyInt fallback), warned w).
Proof.
  intros H Hgt. unfold get_total_production_from_llm.
  destruct (numeric_str raw) as [|c s]; [discriminate|].
  rewrite H, Hgt. reflexivity.
Qed.

Lemma run_passed (raw : str) (w : world) (v : spec_float) :
  PyFloat.float (numeric_str raw) = Some v ->
  float_gt v (double_of_int ceiling) = false ->
  get_total_production_from_llm raw w = (Return (PyFloat v), w).
Proof.
  intros H Hgt. unfold get_total_production_from_llm.
  destruct (numeric_str raw) as [|c s]; [discriminate|].
  rewrite H, Hgt. reflexivity.
Qed.

(** ** What [float] returns *)

Lemma scan_digits_nonneg (s : str) : forall acc n,
  0 <= acc -> 0 <= fst (fst (PyFloat.scan_digits s acc n)).
Proof.
  induction s as [|c s IH]; intros acc n Hacc; [exact Hacc|].
  cbn [PyFloat.scan_digits]. destruct (is_ascii_digit c) eqn:E; [|exact Hacc].
  apply IH. apply in_range_spec in E. lia.
Qed.

Lemma strtod_nonneg (t : str) (m : Z) (nf : nat) :
  PyFloat.strtod t = Some (m, nf) -> 0 <= m.
Proof.
  unfold PyFloat.strtod.
  pose proof (scan_digits_nonneg t 0 0 (Z.le_refl 0)) as H1.
  destruct (PyFloat.scan_digits t 0 0) as [[i ni] r1]. simpl in H1.
  assert (H2 : forall r, 0 <= fst (fst (PyFloat.scan_digits r i 0)))
    by (intros r; apply scan_digits_nonneg; exact H1).
  destruct r1 as [|c r].
  - destruct (ni + 0 =? 0)%nat; [discriminate|]. intros [= <- _]. exact H1.
  - destruct (c =? period)%N.
    + specialize (H2 r). destruct (PyFloat.scan_digits r i 0) as [[m' nf'] r2].
      simpl in H2. destruct r2; [|discriminate].
      destruct (ni + nf' =? 0)%nat; [discriminate|]. intros [= <- _]. exact H2.
    + discriminate.
Qed.

Lemma div_core_nonneg (n d : Z) :
  0 <= n -> 0 < d ->
  0 <= fst (fst (SFdiv_core_binary prec emax n 0 d 0)).
Proof.
  intros Hn Hd. unfold SFdiv_core_binary.
  set (e' := Z.min _ _). set (s := 0 - 0 - e').
  set (m' := match s with Z0 => n | Zpos _ => Z.shiftl n s | Zneg _ => 0 end).
  assert (Hm' : 0 <= m').
  { subst m'. destruct s; try lia. apply Z.shiftl_nonneg. exact Hn. }
  pose proof (Z.div_pos m' d Hm' Hd) as Hq.
  unfold Z.div in Hq.
  destruct (Z.div_eucl m' d) as [q r]. exact Hq.
Qed.

Lemma round_quotient_rounded (s : bool) (n d : Z) :
  0 <= n -> 0 < d -> rounded prec s (round_quotient s n d).
Proof.
  intros Hn Hd. unfold round_quotient.
  pose proof (div_core_nonneg n d Hn Hd) as Hq.
  destruct (SFdiv_core_binary prec emax n 0 d 0) as [[q e] l]. simpl in Hq.
  apply binary_round_aux_rounded; [unfold prec; lia | exact Hq].
Qed.

Lemma float_rounded (s : str) (v : spec_float) :
  PyFloat.float s = Some v -> rounded prec false v.
Proof.
  unfold PyFloat.float.
  destruct (PyFloat.strtod (PyFloat.transform s)) as [[m nf]|] eqn:E; [|discriminate].
  intros [= <-]. apply strtod_nonneg in E.
  apply round_quotient_rounded; [exact E|]. apply Z.pow_pos_nonneg; lia.
Qed.

Lemma double_of_ceiling :
  double_of_int ceiling = S754_finite false 8796093022208000 (-44).
Proof. vm_compute. reflexivity. Qed.

Lemma not_above_ceiling (v : spec_float) :
  rounded prec false v ->
  float_gt v (double_of_int ceiling) = false ->
  is_finite v = true /\ (0 <= F2Q v)%Q /\ (F2Q v <= inject_Z ceiling)%Q.
Proof.
  rewrite double_of_ceiling. unfold float_gt.
  destruct v as [s|s| |s m e].
  - intros _ _. repeat split; unfold Qle; simpl; lia.
  - simpl. intros -> H. discriminate H.
  - simpl. contradiction.
  - intros [-> Hm]. unfold prec in Hm. cbn [SFcompare]. 
    destruct e as [|e|e].
    + cbn. discriminate.
    + cbn. discriminate.
    + intros H. split; [reflexivity|]. cbn [F2Q cond_Zopp is_finite].
      unfold Qle, ceiling. cbn [Qnum Qden inject_Z].
      rewrite Pos2Z.inj_pow.
      assert (H53 : 2 ^ 53 = 9007199254740992) by reflexivity.
      rewrite H53 in Hm.
      destruct (Z.compare_spec (Z.neg e) (-44)) as [E | E | E].
      * injection E as ->. rewrite Pos.compare_cont_spec in H. cbn [Pos.switch_Eq] in H.
        assert (H44 : 2 ^ 44 = 17592186044416) by reflexivity.
        rewrite H44.
        assert (Hle : (m <= 8796093022208000)%positive).
        { unfold Pos.le. intros Hgt. rewrite Hgt in H. discriminate H. }
        apply Pos2Z.pos_le_pos in Hle. clear H. lia.
      * assert (Hp : 2 ^ 45 <= 2 ^ Z.pos e) by (apply Z.pow_le_mono_r; lia).
        assert (H45 : 2 ^ 45 = 35184372088832) by reflexivity.
        rewrite H45 in Hp. lia.
      * discriminate H.
Qed.

(** ** Overflow: a quotient of at least [2 ^ emax] rounds to infinity *)

Lemma Zdigits2_lower (z : Z) : 0 < z -> 2 ^ (Zdigits2 z - 1) <= z.
Proof.
  destruct z as [|n|n]; cbn [Zdigits2]; intros H; try lia.
  rewrite digits2_pos_size.
  pose proof (Pos.size_le n) as Hn.
  apply Pos2Z.pos_le_pos in Hn. rewrite Pos2Z.inj_pow in Hn.
  replace (Z.pos (Pos.size n)) with (Z.succ (Z.pos (Pos.size n) - 1)) in Hn by lia.
  rewrite Z.pow_succ_r in Hn by lia. lia.
Qed.

Lemma Zdigits2_ge (z k : Z) : 0 <= z -> 2 ^ (k - 1) <= z -> k <= Zdigits2 z.
Proof.
  intros Hz Hk. pose proof (Zdigits2_gt z Hz) as Hlt.
  pose proof (Zdigits2_nonneg z) as Hd.
  destruct (Z.le_gt_cases k (Zdigits2 z)) as [H|H]; [exact H|].
  exfalso. assert (2 ^ Zdigits2 z <= 2 ^ (k - 1)) by (apply Z.pow_le_mono_r; lia).
  lia.
Qed.

Lemma Zdigits2_le (z k : Z) : 0 <= z -> 0 <= k -> z < 2 ^ k -> Zdigits2 z <= k.
Proof.
  intros Hz Hk Hlt.
  destruct (Z.eq_dec z 0) as [-> | Hnz]; [simpl; lia|].
  pose proof (Zdigits2_lower z ltac:(lia)) as Hlo.
  destruct (Z.le_gt_cases (Zdigits2 z) k) as [H|H]; [exact H|].
  exfalso. assert (2 ^ k <= 2 ^ (Zdigits2 z - 1)) by (apply Z.pow_le_mono_r; lia).
  lia.
Qed.

Lemma Zdigits2_pos_inv (z : Z) : 0 <= z -> 0 < Zdigits2 z -> exists m, z = Zpos m.
Proof. destruct z as [|m|m]; simpl; intros; try lia. exists m; reflexivity. Qed.

Lemma fexp_large (x : Z) : 0 <= x - prec -> fexp prec emax x = x - prec.
Proof. unfold fexp, emin, prec, emax. lia. Qed.

Lemma round_nearest_even_le (m : Z) (l : location) :
  m <= round_nearest_even m l <= m + 1.
Proof.
  destruct l as [|[]]; simpl; try lia. destruct (Z.even m); lia.
Qed.

Lemma binary_round_aux_overflow (s : bool) (q e : Z) (l : location) :
  0 <= e -> 2 ^ emax <= q ->
  binary_round_aux prec emax s q e l = S754_infinity s.
Proof.
  intros He Hq.
  assert (Hq0 : 0 <= q) by (pose proof (Z.pow_pos_nonneg 2 emax); unfold emax in *; lia).
  assert (Hdq : emax + 1 <= Zdigits2 q).
  { apply Zdigits2_ge; [exact Hq0|]. replace (emax + 1 - 1) with emax by lia. exact Hq. }
  unfold binary_round_aux, shr_fexp.
  rewrite (fexp_large (Zdigits2 q + e)) by (unfold prec, emax in *; lia).
  unfold shr at 1.
  destruct (Zdigits2 q + e - prec - e) as [|n|n] eqn:En;
    try (unfold prec, emax in *; lia).
  destruct (iter_shr_1_digits n (shr_record_of_loc q l)) as [H1 D1];
    [rewrite shr_m_of_loc; exact Hq0|].
  rewrite shr_m_of_loc in D1.
  set (mrs1 := iter_pos shr_1 n (shr_record_of_loc q l)) in *.
  assert (D1' : Zdigits2 (shr_m mrs1) = prec) by (unfold prec, emax in *; lia).
  pose proof (round_nearest_even_le (shr_m mrs1) (loc_of_shr_record mrs1)) as Hr.
  set (m2 := round_nearest_even (shr_m mrs1) (loc_of_shr_record mrs1)) in *.
  assert (Hlo1 : 2 ^ (prec - 1) <= shr_m mrs1).
  { rewrite <- D1'. apply Zdigits2_lower.
    destruct (Zdigits2_pos_inv (shr_m mrs1) H1) as [k Hk];
      [unfold prec in *; lia | lia]. }
  pose proof (Zdigits2_gt (shr_m mrs1) H1) as Hhi1. rewrite D1' in Hhi1.
  assert (Hm2 : 0 <= m2) by lia.
  assert (D2lo : prec <= Zdigits2 m2) by (apply Zdigits2_ge; lia).
  assert (D2hi : Zdigits2 m2 <= prec + 1).
  { apply Zdigits2_le; [lia | unfold prec; lia |].
    replace (prec + 1) with (Z.succ prec) by lia.
    rewrite Z.pow_succ_r by (unfold prec; lia). lia. }
  rewrite (fexp_large (Zdigits2 m2 + (e + Z.pos n))) by (unfold prec, emax in *; lia).
  unfold shr.
  destruct (Zdigits2 m2 + (e + Z.pos n) - prec - (e + Z.pos n)) as [|k|k] eqn:Ek;
    try (unfold prec, emax in *; lia).
  - simpl shr_m.
    destruct (Zdigits2_pos_inv m2 Hm2) as [m Hm]; [unfold prec in *; lia|].
    rewrite Hm.
    destruct (e + Z.pos n <=? emax - prec) eqn:El; [|reflexivity].
    apply Z.leb_le in El. unfold prec, emax in *. lia.
  - destruct (iter_shr_1_digits k (shr_record_of_loc m2 loc_Exact)) as [H3 D3];
      [rewrite shr_m_of_loc; exact Hm2|].
    rewrite shr_m_of_loc in D3.
    destruct (Zdigits2_pos_inv _ H3) as [m Hm]; [unfold prec in *; lia|].
    rewrite Hm.
    destruct (e + Z.pos n + Z.pos k <=? emax - prec) eqn:El; [|reflexivity].
    apply Z.leb_le in El. unfold prec, emax in *. lia.
Qed.

Lemma round_quotient_overflow (s : bool) (n d : Z) :
  0 < d -> 2 ^ emax * d <= n -> round_quotient s n d = S754_infinity s.
Proof.
  intros Hd Hn. unfold round_quotient, SFdiv_core_binary.
  assert (Hp : 0 < 2 ^ emax) by (apply Z.pow_pos_nonneg; unfold emax; lia).
  assert (Hn0 : 0 <= n) by nia.
  assert (Hd2 : 2 ^ (Zdigits2 d - 1) <= d) by (apply Zdigits2_lower; exact Hd).
  assert (Hdd : 0 < Zdigits2 d).
  { destruct d; simpl; lia. }
  assert (Hdn : emax + Zdigits2 d <= Zdigits2 n).
  { apply Zdigits2_ge; [exact Hn0|].
    replace (emax + Zdigits2 d - 1) with (emax + (Zdigits2 d - 1)) by lia.
    rewrite Z.pow_add_r by (unfold emax; lia). nia. }
  rewrite fexp_large by (unfold prec, emax in *; lia).
  rewrite Z.min_r by (unfold prec, emax in *; lia).
  change (0 - 0 - (0 - 0)) with 0. cbv iota.
  assert (Hq : 2 ^ emax <= n / d).
  { apply Z.div_le_lower_bound; [exact Hd | lia]. }
  unfold Z.div in Hq. destruct (Z.div_eucl n d) as [q r].
  apply binary_round_aux_overflow; [lia | exact Hq].
Qed.

(** ** Canonical results: what [binary_round_aux] returns is a valid float *)

Lemma fexp_unfold (x : Z) : fexp prec emax x = Z.max (x - 53) (-1074).
Proof. reflexivity. Qed.

Lemma shr_fexp_canonical (m e : Z) (l : location) :
  0 <= m -> e <= fexp prec emax (Zdigits2 m + e) ->
  canonical (shr_m (fst (shr_fexp prec emax m e l))) (snd (shr_fexp prec emax m e l)).
Proof.
  intros Hm He. unfold canonical, shr_fexp, shr.
  pose proof (Zdigits2_nonneg m) as Hd.
  destruct (fexp prec emax (Zdigits2 m + e) - e) as [|n|n] eqn:En; cbn [fst snd].
  - rewrite shr_m_of_loc. split; [exact Hm | lia].
  - destruct (iter_shr_1_digits n (shr_record_of_loc m l)) as [H D];
      [rewrite shr_m_of_loc; exact Hm|].
    rewrite shr_m_of_loc in D. split; [exact H|]. rewrite D.
    rewrite fexp_unfold in *. lia.
  - lia.
Qed.

Lemma round_nearest_even_digits (m : Z) (l : location) :
  0 <= m ->
  Zdigits2 (round_nearest_even m l) = Zdigits2 m \/
  Zdigits2 (round_nearest_even m l) = Zdigits2 m + 1.
Proof.
  intros Hm. pose proof (round_nearest_even_le m l) as Hr.
  pose proof (Zdigits2_gt m Hm) as Hlt.
  pose proof (Zdigits2_nonneg m) as Hd.
  set (m' := round_nearest_even m l) in *.
  assert (Hup : Zdigits2 m' <= Zdigits2 m + 1).
  { apply Zdigits2_le; [lia | lia |].
    replace (Zdigits2 m + 1) with (Z.succ (Zdigits2 m)) by lia.
    rewrite Z.pow_succ_r by lia. lia. }
  assert (Hlo : Zdigits2 m <= Zdigits2 m').
  { destruct (Z.eq_dec m 0) as [-> | Hnz]; [apply Zdigits2_nonneg|].
    apply Zdigits2_ge; [lia|].
    pose proof (Zdigits2_lower m ltac:(lia)). lia. }
  lia.
Qed.

Lemma binary_round_aux_valid (s : bool) (mx ex : Z) (lx : location) :
  0 <= mx -> ex <= fexp prec emax (Zdigits2 mx + ex) ->
  valid_binary prec emax (binary_round_aux prec emax s mx ex lx) = true.
Proof.
  intros Hmx Hex. unfold binary_round_aux.
  pose proof (shr_fexp_canonical mx ex lx Hmx Hex) as [H1 C1].
  destruct (shr_fexp prec emax mx ex lx) as [mrs1 e1]; cbn [fst snd] in H1, C1.
  pose proof (round_nearest_even_nonneg (shr_m mrs1) (loc_of_shr_record mrs1) H1) as H2.
  pose proof (round_nearest_even_digits (shr_m mrs1) (loc_of_shr_record mrs1) H1) as D2.
  set (m2 := round_nearest_even (shr_m mrs1) (loc_of_shr_record mrs1)) in *.
  assert (He2 : e1 <= fexp prec emax (Zdigits2 m2 + e1)).
  { rewrite fexp_unfold in *. lia. }
  pose proof (shr_fexp_canonical m2 e1 loc_Exact H2 He2) as [H3 C3].
  destruct (shr_fexp prec emax m2 e1 loc_Exact) as [mrs2 e2]; cbn [fst snd] in H3, C3.
  destruct (shr_m mrs2) as [|m|m] eqn:Em; try reflexivity.
  destruct (e2 <=? emax - prec) eqn:El; [|reflexivity].
  cbn [valid_binary]. unfold bounded, canonical_mantissa.
  cbn [Zdigits2] in C3. rewrite C3, Z.eqb_refl, El. reflexivity.
Qed.

Lemma div_core_canonical (n d : Z) :
  0 < n -> 0 < d ->
  let '(q, e, l) := SFdiv_core_binary prec emax n 0 d 0 in
  0 <= q /\ e <= fexp prec emax (Zdigits2 q + e).
Proof.
  intros Hn Hd.
  pose proof (div_core_nonneg n d ltac:(lia) Hd) as Hq0.
  unfold SFdiv_core_binary in *.
  set (d1 := Zdigits2 n) in *. set (d2 := Zdigits2 d) in *.
  set (e' := Z.min (fexp prec emax (d1 + 0 - (d2 + 0))) (0 - 0)) in *.
  set (s := 0 - 0 - e') in *.
  set (m' := match s with Z0 => n | Zpos _ => Z.shiftl n s | Zneg _ => 0 end) in *.
  assert (Hs : 0 <= s) by (subst s e'; lia).
  assert (Hm' : m' = n * 2 ^ s).
  { subst m'. destruct s as [|p|p] eqn:Es; try lia.
    rewrite Z.shiftl_mul_pow2 by lia. reflexivity. }
  pose proof (Z.div_mod m' d ltac:(lia)) as Hdm.
  pose proof (Z.mod_pos_bound m' d Hd) as Hmod.
  unfold Z.div, Z.modulo in Hdm, Hmod.
  destruct (Z.div_eucl m' d) as [q r]. cbn [fst] in Hq0.
  split; [exact Hq0|].
  assert (Hdq : d1 + s - d2 <= Zdigits2 q).
  { pose proof (Zdigits2_nonneg q).
    destruct (Z.le_gt_cases (d1 + s - d2) 0) as [Hk | Hk]; [lia|].
    apply Zdigits2_ge; [exact Hq0|].
    pose proof (Zdigits2_lower n Hn) as Hnlo. fold d1 in Hnlo.
    pose proof (Zdigits2_gt d ltac:(lia)) as Hdhi. fold d2 in Hdhi.
    assert (Hd1 : 0 < d1) by (subst d1; destruct n; simpl; lia).
    assert (Hd2 : 0 < d2) by (subst d2; destruct d; simpl; lia).
    (* 2^(d1-1+s) <= m' < (q+1) * d < (q+1) * 2^d2 *)
    assert (Hpow : 2 ^ (d1 - 1 + s) = 2 ^ (d1 + s - d2 - 1) * 2 ^ d2).
    { rewrite <- Z.pow_add_r by lia. f_equal. lia. }
    assert (Hm'lo : 2 ^ (d1 - 1 + s) <= m').
    { rewrite Hm', Z.pow_add_r by lia.
      apply Z.mul_le_mono_nonneg_r; [apply Z.pow_nonneg; lia | exact Hnlo]. }
    assert (Hp0 : 0 < 2 ^ (d1 + s - d2 - 1)) by (apply Z.pow_pos_nonneg; lia).
    assert (Hp2 : 0 < 2 ^ d2) by (apply Z.pow_pos_nonneg; lia).
    nia. }
  rewrite !fexp_unfold in *. subst s e'. rewrite fexp_unfold in *. lia.
Qed.

Lemma iter_pos_fixed {A : Type} (f : A -> A) (x : A) (n : positive) :
  f x = x -> iter_pos f n x = x.
Proof.
  intros Hf. induction n as [n IH|n IH|]; simpl; congruence.
Qed.

Lemma shr_fexp_zero (e : Z) :
  fst (shr_fexp prec emax 0 e loc_Exact)
  = {| shr_m := 0; shr_r := false; shr_s := false |}.
Proof.
  unfold shr_fexp, shr. cbn [shr_record_of_loc].
  destruct (fexp prec emax (Zdigits2 0 + e) - e); cbn [fst]; try reflexivity.
  apply iter_pos_fixed. reflexivity.
Qed.

Lemma binary_round_aux_zero (s : bool) (e : Z) :
  binary_round_aux prec emax s 0 e loc_Exact = S754_zero s.
Proof.
  unfold binary_round_aux.
  pose proof (shr_fexp_zero e) as H1.
  destruct (shr_fexp prec emax 0 e loc_Exact) as [mrs1 e1]. cbn [fst] in H1.
  subst mrs1. cbn [shr_m loc_of_shr_record round_nearest_even].
  pose proof (shr_fexp_zero e1) as H2.
  destruct (shr_fexp prec emax 0 e1 loc_Exact) as [mrs2 e2]. cbn [fst] in H2.
  subst mrs2. reflexivity.
Qed.

Lemma new_location_zero (d : Z) : new_location d 0 = loc_Exact.
Proof. unfold new_location. destruct (Z.even d); reflexivity. Qed.

Lemma round_quotient_zero (s : bool) (d : Z) : round_quotient s 0 d = S754_zero s.
Proof.
  unfold round_quotient, SFdiv_core_binary.
  cbn [Zdigits2]. set (e' := Z.min _ _). set (sh := 0 - 0 - e').
  assert (Hm : match sh with Z0 => 0 | Zpos _ => Z.shiftl 0 sh | Zneg _ => 0 end = 0).
  { destruct sh; try reflexivity. apply Z.shiftl_0_l. }
  rewrite Hm. cbn [Z.div_eucl]. rewrite new_location_zero.
  apply binary_round_aux_zero.
Qed.

Lemma round_quotient_valid (s : bool) (n d : Z) :
  0 <= n -> 0 < d -> valid_binary prec emax (round_quotient s n d) = true.
Proof.
  intros Hn Hd. destruct (Z.eq_dec n 0) as [-> | Hnz].
  - rewrite round_quotient_zero. reflexivity.
  - unfold round_quotient.
    pose proof (div_core_canonical n d ltac:(lia) Hd) as H.
    destruct (SFdiv_core_binary prec emax n 0 d 0) as [[q e] l].
    destruct H as [Hq He]. apply binary_round_aux_valid; assumption.
Qed.

Lemma float_valid (s : str) (v : spec_float) :
  PyFloat.float s = Some v -> valid_binary prec emax v = true.
Proof.
  unfold PyFloat.float.
  destruct (PyFloat.strtod (PyFloat.transform s)) as [[m nf]|] eqn:E; [|discriminate].
  intros [= <-]. apply strtod_nonneg in E.
  apply round_quotient_valid; [exact E|]. apply Z.pow_pos_nonneg; lia.
Qed.

(** On a valid non-negative float, the test of line 88 holds exactly when
    the float is infinite or stands for a rational above 500. *)
Lemma above_ceiling_iff (v : spec_float) :
  rounded prec false v -> valid_binary prec emax v = true ->
  (float_gt v (double_of_int ceiling) = true <->
   v = S754_infinity false \/
   (is_finite v = true /\ (inject_Z ceiling < F2Q v)%Q)).
Proof.
  intros Hr Hv. split.
  - intros Hgt. destruct v as [s0|s0| |s0 m e]; cbn [rounded] in Hr.
    + rewrite double_of_ceiling in Hgt. discriminate Hgt.
    + left. congruence.
    + contradiction.
    + right. split; [reflexivity|]. destruct Hr as [-> Hm].
      rewrite double_of_ceiling in Hgt. unfold float_gt in Hgt. cbn [SFcompare] in Hgt.
      cbn [valid_binary] in Hv. unfold bounded, canonical_mantissa in Hv.
      apply andb_true_iff in Hv. destruct Hv as [Hc _].
      apply Z.eqb_eq in Hc. rewrite fexp_unfold in Hc.
      pose proof (Zdigits2_lower (Zpos m) ltac:(lia)) as Hlo. cbn [Zdigits2] in Hlo.
      unfold Qlt, ceiling. 
      destruct (Z.compare_spec e (-44)) as [E | E | E].
      * subst e. cbn [F2Q cond_Zopp Qnum Qden inject_Z].
        rewrite Pos2Z.inj_pow.
        assert (H44 : 2 ^ 44 = 17592186044416) by reflexivity. rewrite H44.
        rewrite Pos.compare_cont_spec in Hgt. cbn [Pos.switch_Eq] in Hgt.
        destruct (m ?= 8796093022208000)%positive eqn:Ec; try discriminate Hgt.
        apply Pos.compare_gt_iff in Ec. apply Pos2Z.pos_lt_pos in Ec. lia.
      * discriminate Hgt.
      * (* e > -44: the mantissa has 53 bits *)
        assert (Hd : Z.pos (digits2_pos m) = 53) by lia.
        rewrite Hd in Hlo.
        assert (H52 : 2 ^ (53 - 1) = 4503599627370496) by reflexivity.
        rewrite H52 in Hlo.
        destruct e as [|p|p]; cbn [F2Q cond_Zopp Qnum Qden inject_Z].
        -- lia.
        -- pose proof (Z.pow_pos_nonneg 2 (Z.pos p) ltac:(lia) ltac:(lia)). nia.
        -- rewrite Pos2Z.inj_pow.
           assert (Hp : 2 ^ Z.pos p <= 2 ^ 43) by (apply Z.pow_le_mono_r; lia).
           assert (H43 : 2 ^ 43 = 8796093022208) by reflexivity.
           rewrite H43 in Hp. lia.
  - intros [-> | [Hfin Hlt]].
    + rewrite double_of_ceiling. reflexivity.
    + destruct (float_gt v (double_of_int ceiling)) eqn:Eg; [reflexivity|].
      destruct (not_above_ceiling v Hr Eg) as (_ & _ & Hle).
      exfalso. exact (Qlt_not_le _ _ Hlt Hle).
Qed.

(** ** Helper facts for the claims *)

Lemma keep_false_iff (c : char) :
  keep c = false <-> Unicode.isdigit c = false /\ c <> period.
Proof.
  unfold keep. rewrite orb_false_iff, N.eqb_neq. tauto.
Qed.

Lemma dropped_by_forallb (l : str) :
  forallb (fun c => negb (keep c)) l = true ->
  Forall (fun c => Unicode.isdigit c = false /\ c <> period) l.
Proof.
  intros H. apply Forall_forall. intros c Hc.
  apply keep_false_iff. apply negb_true_iff.
  exact (proj1 (forallb_forall _ l) H c Hc).
Qed.

Lemma Forall_by_forallb (f : char -> bool) (l : str) :
  forallb f l = true -> Forall (fun c => f c = true) l.
Proof. intros H. apply Forall_forall. exact (proj1 (forallb_forall f l) H). Qed.

Lemma decimal_keep (c : char) : decimal c -> keep c = true.
Proof.
  unfold decimal, keep, Unicode.isdigit. intros ->. reflexivity.
Qed.

Lemma fold_step_shift (b : str) : forall acc,
  fold_left step b acc = acc * 10 ^ Z.of_nat (List.length b) + fold_left step b 0.
Proof.
  induction b as [|c b IH]; intros acc.
  - simpl. lia.
  - cbn [fold_left List.length]. rewrite (IH (step acc c)), (IH (step 0 c)).
    rewrite Nat2Z.inj_succ, Z.pow_succ_r by lia. unfold step. lia.
Qed.

Lemma digits_value_app (a b : str) :
  digits_value (a ++ b)
  = digits_value a * 10 ^ Z.of_nat (List.length b) + digits_value b.
Proof.
  unfold digits_value.
  change (fun acc c => 10 * acc + digit_value c) with step.
  rewrite fold_left_app. apply fold_step_shift.
Qed.

Lemma fold_step_nines (n : nat) : forall acc,
  fold_left step (repeat 57%N n) acc = (acc + 1) * 10 ^ Z.of_nat n - 1.
Proof.
  induction n as [|n IH]; intros acc.
  - simpl. lia.
  - cbn [repeat fold_left]. rewrite IH.
    rewrite Nat2Z.inj_succ, Z.pow_succ_r by lia.
    unfold step. change (digit_value 57%N) with 9. lia.
Qed.

Lemma digits_value_nines (n : nat) :
  digits_value (repeat 57%N n) = 10 ^ Z.of_nat n - 1.
Proof.
  unfold digits_value.
  change (fun acc c => 10 * acc + digit_value c) with step.
  rewrite fold_step_nines. lia.
Qed.

Lemma nines_decimal (n : nat) : Forall decimal (repeat 57%N n).
Proof.
  induction n; simpl; constructor; [reflexivity | assumption].
Qed.

Lemma pow10_309 : 2 ^ emax <= 10 ^ 309 - 1.
Proof. apply Z.leb_le. vm_compute. reflexivity. Qed.

(** ** [main] and the specification's [per_center] *)

(** With at least one centre, [main] asks for the estimate and then does
    what [per_center] does with it. *)
Lemma main_per_center (commod_name : string) (num_centres : Z)
    (llm_output : str) (w : world) :
  num_centres <> 0 ->
  match get_total_production_from_llm llm_output w with
  | (Raise e, w') => main commod_name num_centres llm_output w = (Raise e, w')
  | (Return total, w') =>
      match per_center total num_centres with
      | ZeroCenters => False
      | DivisionRaised e =>
          main commod_name num_centres llm_output w = (Raise e, w')
      | PerCenter share =>
          exists r, main commod_name num_centres llm_output w = (Return (Some r), w')
                    /\ total_production_million r = total /\ per_centre r = share
      end
  end.
Proof.
  intros Hn. apply Z.eqb_neq in Hn. unfold main, per_center, bind, lift, ret.
  rewrite Hn.
  destruct (get_total_production_from_llm llm_output w) as [[total|e] w'];
    [|reflexivity].
  destruct (per_centre_production total num_centres) as [r|e]; [|reflexivity].
  eexists. split; [reflexivity|]. split; reflexivity.
Qed.

(** * The claims *)

(** C1. Whenever the extraction returns a number, that number is finite,
    non-negative and at most the plausibility ceiling 500: it is either the
    fallback 145 or a parsed float that the test of line 88 let through. *)
Theorem extract_estimate_within_ceiling (raw_text : str) (w : world) (x : pynum) :
  extract_estimate raw_text w = Return x ->
  num_is_finite x = true /\
  (0 <= num_value x)%Q /\ (num_value x <= inject_Z ceiling)%Q.
Proof.
  unfold extract_estimate, get_total_production_from_llm.
  destruct (numeric_str raw_text) as [|c s] eqn:En; [discriminate|].
  destruct (PyFloat.float (c :: s)) as [v|] eqn:Ef; [|discriminate].
  destruct (float_gt v (double_of_int ceiling)) eqn:Eg.
  - intros [= <-]. split; [reflexivity|]. unfold Qle; simpl. lia.
  - intros [= <-]. apply not_above_ceiling; [|exact Eg].
    exact (float_rounded (c :: s) v Ef).
Qed.

Lemma extract_estimate_within_ceiling_witness :
  extract_estimate (str_of "146.5 million tons") w0
    = Return (PyFloat (S754_finite false 5154510511013888 (-45))) /\
  (num_is_finite (PyFloat (S754_finite false 5154510511013888 (-45))) = true /\
   (0 <= num_value (PyFloat (S754_finite false 5154510511013888 (-45))))%Q /\
   (num_value (PyFloat (S754_finite false 5154510511013888 (-45)))
    <= inject_Z ceiling)%Q).
Proof.
  assert (H : extract_estimate (str_of "146.5 million tons") w0
              = Return (PyFloat (S754_finite false 5154510511013888 (-45))))
    by (vm_compute; reflexivity).
  split; [exact H|].
  exact (extract_estimate_within_ceiling (str_of "146.5 million tons") w0 _ H).
Defined.

(** C6. A text with no character for which [str.isdigit] holds and no
    period leaves the filtered string empty, and the call raises the
    ValueError of line 83 (NoNumericContent) without printing anything. *)
Theorem no_numeric_content (raw_text : str) (w : world) :
  Forall (fun c => Unicode.isdigit c = false /\ c <> period) raw_text ->
  numeric_str raw_text = [] /\
  get_total_production_from_llm raw_text w = (Raise ValueError_no_numeric_value, w).
Proof.
  intros H.
  assert (E : numeric_str raw_text = []).
  { apply numeric_str_dropped. eapply Forall_impl; [|exact H].
    intros c Hc. apply keep_false_iff. exact Hc. }
  split; [exact E|]. apply run_empty. exact E.
Qed.

Lemma no_numeric_content_witness :
  numeric_str (str_of "I do not know, sorry") = [] /\
  get_total_production_from_llm (str_of "I do not know, sorry") w0
  = (Raise ValueError_no_numeric_value, w0).
Proof.
  apply (no_numeric_content (str_of "I do not know, sorry") w0).
  apply dropped_by_forallb. vm_compute. reflexivity.
Defined.

(** C6 as the specification words it, with the ASCII decimal digits of its
    filter step for the digit characters, fails: the text made of
    superscript two (U+00B2) has no ASCII digit and no period, but line 81
    keeps it, so the filtered string is not empty and the call raises the
    ValueError of [float] at line 85, not the one of line 83. *)
Lemma no_ascii_digit_still_numeric_content :
  ~ (forall (raw_text : str) (w : world),
       Forall (fun c => is_ascii_digit c = false /\ c <> period) raw_text ->
       extract_estimate raw_text w = Raise ValueError_no_numeric_value).
Proof.
  intros H. specialize (H [0xb2%N] w0).
  assert (Hno : Forall (fun c => is_ascii_digit c = false /\ c <> period) [0xb2%N]).
  { constructor; [|constructor]. split; [vm_compute; reflexivity|].
    vm_compute. discriminate. }
  specialize (H Hno). unfold extract_estimate in H.
  rewrite (run_malformed [0xb2%N] w0) in H.
  - discriminate H.
  - vm_compute. discriminate.
  - vm_compute. reflexivity.
Qed.

(** C7. When the filtered string is not empty and is not a decimal literal,
    [float] raises its ValueError (MalformedNumber): the exception leaves the
    call, nothing is printed and no fallback is returned.  "140.15.0" (from
    "140.1" and "5.0") and a lone period are such strings. *)
Theorem malformed_number :
  (forall (raw_text : str) (w : world),
     numeric_str raw_text <> [] ->
     ~ valid_decimal_literal (numeric_str raw_text) ->
     get_total_production_from_llm raw_text w
     = (Raise (ValueError_float (numeric_str raw_text)), w)) /\
  (numeric_str (str_of "140.1 and 5.0") = str_of "140.15.0" /\
   ~ valid_decimal_literal (str_of "140.15.0")) /\
  ~ valid_decimal_literal (str_of ".").
Proof.
  split; [|split; [split|]].
  - intros raw_text w Hne Hbad. apply run_malformed; [exact Hne|].
    apply float_None_invalid. exact Hbad.
  - vm_compute. reflexivity.
  - apply float_None_invalid. vm_compute. reflexivity.
  - apply float_None_invalid. vm_compute. reflexivity.
Qed.

Lemma malformed_number_witness :
  get_total_production_from_llm (str_of "140.1 and 5.0") w0
  = (Raise (ValueError_float (numeric_str (str_of "140.1 and 5.0"))), w0).
Proof.
  apply (proj1 malformed_number (str_of "140.1 and 5.0") w0).
  - vm_compute. discriminate.
  - apply float_None_invalid. vm_compute. reflexivity.
Defined.

(** C8. The outcome of the extraction depends on the text alone: it is the
    same in any two worlds, so also in two successive calls, the second of
    which runs in the world the first one left; the call changes nothing but
    the printed output, which it only extends. *)
Theorem extract_deterministic (raw_text : str) (w1 w2 : world) :
  extract_estimate raw_text w1 = extract_estimate raw_text w2 /\
  extract_estimate raw_text (snd (get_total_production_from_llm raw_text w1))
  = extract_estimate raw_text w1 /\
  api_key (snd (get_total_production_from_llm raw_text w1)) = api_key w1 /\
  exists printed,
    stdout (snd (get_total_production_from_llm raw_text w1)) = stdout w1 ++ printed.
Proof.
  unfold extract_estimate, get_total_production_from_llm.
  destruct (numeric_str raw_text) as [|c s].
  - simpl. repeat split. exists []. rewrite app_nil_r. reflexivity.
  - destruct (PyFloat.float (c :: s)) as [v|].
    + destruct (float_gt v (double_of_int ceiling)).
      * simpl. repeat split. exists [warning]. reflexivity.
      * simpl. repeat split. exists []. rewrite app_nil_r. reflexivity.
    + simpl. repeat split. exists []. rewrite app_nil_r. reflexivity.
Qed.

(** C9. The filter keeps every character for which [str.isdigit] holds, and
    that includes characters that are no ASCII digits: the text made of the
    single character superscript two (U+00B2) has no ASCII digit and no
    period, its filtered string is not empty, and the call fails in [float]
    (line 85), not with the ValueError of line 83. *)
Theorem superscript_two_fails_at_parse :
  (forall (raw_text : str) (c : char),
     In c raw_text -> Unicode.isdigit c = true -> In c (numeric_str raw_text)) /\
  forallb (fun c => negb (ascii_keep c)) [0xb2%N] = true /\
  Unicode.isdigit 0xb2%N = true /\
  numeric_str [0xb2%N] = [0xb2%N] /\
  (forall w : world,
     get_total_production_from_llm [0xb2%N] w
     = (Raise (ValueError_float [0xb2%N]), w)) /\
  ValueError_float [0xb2%N] <> ValueError_no_numeric_value.
Proof.
  split; [|split; [|split; [|split; [|split]]]].
  - intros raw_text c Hin Hd. apply numeric_str_In. split; [exact Hin|].
    unfold keep. rewrite Hd. reflexivity.
  - vm_compute. reflexivity.
  - vm_compute. reflexivity.
  - vm_compute. reflexivity.
  - intros w. apply (run_malformed [0xb2%N] w).
    + vm_compute. discriminate.
    + vm_compute. reflexivity.
  - discriminate.
Qed.

Lemma superscript_two_fails_at_parse_witness :
  In 0xb2%N (numeric_str (str_of "m" ++ [0xb2%N])).
Proof.
  apply (proj1 superscript_two_fails_at_parse (str_of "m" ++ [0xb2%N]) 0xb2%N).
  - simpl. right. left. reflexivity.
  - vm_compute. reflexivity.
Defined.

(** C3. When the filtered string parses to a float [v]: if [v] exceeds 500
    (it is infinite, or the rational it stands for is above 500) the call
    prints the warning and returns the fallback 145; if [v] is at most 500,
    zero and 500 included, it returns [v] and prints nothing; one of the two
    always applies.  "600" gives 145, "0" gives 0.0 and "500" gives 500.0. *)
Theorem clamp_rule :
  (forall (raw_text : str) (w : world) (v : spec_float),
     PyFloat.float (numeric_str raw_text) = Some v ->
     (v = S754_infinity false \/
      (is_finite v = true /\ (inject_Z ceiling < F2Q v)%Q) ->
      get_total_production_from_llm raw_text w
      = (Return (PyInt fallback), warned w)) /\
     (is_finite v = true /\ (F2Q v <= inject_Z ceiling)%Q ->
      get_total_production_from_llm raw_text w = (Return (PyFloat v), w)) /\
     ((v = S754_infinity false \/
       (is_finite v = true /\ (inject_Z ceiling < F2Q v)%Q)) \/
      (is_finite v = true /\ (F2Q v <= inject_Z ceiling)%Q))) /\
  (PyFloat.float (numeric_str (str_of "600")) = Some (double_of_int 600) /\
   get_total_production_from_llm (str_of "600") w0 = (Return (PyInt 145), warned w0)) /\
  get_total_production_from_llm (str_of "0") w0
  = (Return (PyFloat (S754_zero false)), w0) /\
  get_total_production_from_llm (str_of "500") w0
  = (Return (PyFloat (double_of_int 500)), w0).
Proof.
  split; [|split; [split|split]]; [|vm_compute; reflexivity ..].
  intros raw_text w v Hv.
  pose proof (float_rounded _ v Hv) as Hr.
  pose proof (float_valid _ v Hv) as Hval.
  pose proof (above_ceiling_iff v Hr Hval) as Hiff.
  split; [|split].
  - intros Habove. apply (run_clamped raw_text w v Hv). apply Hiff. exact Habove.
  - intros [Hfin Hle]. apply (run_passed raw_text w v Hv).
    destruct (float_gt v (double_of_int ceiling)) eqn:Eg; [|reflexivity].
    exfalso. destruct (proj1 Hiff eq_refl) as [-> | [_ Hlt]].
    + discriminate Hfin.
    + exact (Qlt_not_le _ _ Hlt Hle).
  - destruct (float_gt v (double_of_int ceiling)) eqn:Eg.
    + left. apply Hiff. reflexivity.
    + right. destruct (not_above_ceiling v Hr Eg) as (Hfin & _ & Hle). auto.
Qed.

Lemma clamp_rule_witness :
  get_total_production_from_llm (str_of "600 million tons") w0
  = (Return (PyInt fallback), warned w0).
Proof.
  refine (proj1 (proj1 clamp_rule (str_of "600 million tons") w0
                   (double_of_int 600) _) _).
  - vm_compute. reflexivity.
  - right. split; vm_compute; reflexivity.
Defined.

(** C4, as amended.  The filter is the function fixed by three equations:
    nothing is kept of the empty text, a character is kept exactly when
    [str.isdigit] holds of it or it is the period, and the filter of a
    concatenation is the concatenation of the filters (so order is kept).
    On a text of ASCII characters the kept characters are exactly the ASCII
    digits and the periods.  A text that ends in characters the filter drops
    is read as the text before them, and "146.5 million tons" gives 146.5. *)
Theorem filter_spec :
  numeric_str [] = [] /\
  (forall c : char,
     numeric_str [c] = if Unicode.isdigit c || (c =? period)%N then [c] else []) /\
  (forall a b : str, numeric_str (a ++ b) = numeric_str a ++ numeric_str b) /\
  (forall raw_text : str,
     Forall (fun c => is_ascii c = true) raw_text ->
     numeric_str raw_text = List.filter ascii_keep raw_text) /\
  (forall (lit tail : str) (w : world),
     Forall (fun c => keep c = true) lit ->
     Forall (fun c => Unicode.isdigit c = false /\ c <> period) tail ->
     numeric_str (lit ++ tail) = lit /\
     get_total_production_from_llm (lit ++ tail) w
     = get_total_production_from_llm lit w) /\
  get_total_production_from_llm (str_of "146.5 million tons") w0
  = (Return (PyFloat (S754_finite false 5154510511013888 (-45))), w0) /\
  (F2Q (S754_finite false 5154510511013888 (-45)) == 1465 # 10)%Q.
Proof.
  split; [reflexivity|]. split; [|split; [|split; [|split; [|split]]]].
  - intros c. unfold numeric_str, keep. simpl.
    destruct (Unicode.isdigit c || (c =? period)%N); reflexivity.
  - exact numeric_str_app.
  - intros raw_text H. unfold numeric_str. apply filter_ext_in.
    intros c Hc. apply keep_ascii.
    exact (proj1 (Forall_forall _ raw_text) H c Hc).
  - intros lit tail w Hlit Htail.
    assert (E : numeric_str (lit ++ tail) = lit).
    { rewrite numeric_str_app, (numeric_str_kept lit Hlit).
      rewrite numeric_str_dropped, app_nil_r; [reflexivity|].
      eapply Forall_impl; [|exact Htail].
      intros c Hc. apply keep_false_iff. exact Hc. }
    split; [exact E|].
    unfold get_total_production_from_llm.
    rewrite E, (numeric_str_kept lit Hlit). reflexivity.
  - vm_compute. reflexivity.
  - vm_compute. reflexivity.
Qed.

Lemma filter_spec_witness :
  numeric_str (str_of "146.5 million tons")
  = List.filter ascii_keep (str_of "146.5 million tons") /\
  numeric_str (str_of "146.5" ++ str_of " million tons") = str_of "146.5".
Proof.
  split.
  - apply (proj1 (proj2 (proj2 (proj2 filter_spec)))).
    apply Forall_by_forallb. vm_compute. reflexivity.
  - apply (proj1 (proj2 (proj2 (proj2 (proj2 filter_spec))))
             (str_of "146.5") (str_of " million tons") w0).
    + apply (Forall_by_forallb keep). vm_compute. reflexivity.
    + apply dropped_by_forallb. vm_compute. reflexivity.
Defined.

(** C4 as the specification words it fails: the filter keeps superscript
    two, which is neither an ASCII digit nor the period. *)
Lemma filter_keeps_non_ascii_digit :
  ~ (forall (raw_text : str) (c : char),
       In c (numeric_str raw_text) -> is_ascii_digit c = true \/ c = period).
Proof.
  intros H. destruct (H [0xb2%N] 0xb2%N) as [E | E].
  - vm_compute. left. reflexivity.
  - vm_compute in E. discriminate E.
  - vm_compute in E. discriminate E.
Qed.

(** C5. The characters the filter drops between two numbers leave no trace:
    the two digit runs are fused into one token, whose value is that of the
    digits written one after the other.  "Approximately 140-150" (with an en
    dash) gives the token "140150", which parses to 140150.0, exceeds 500 and
    is replaced by the fallback 145 with a warning. *)
Theorem range_fused :
  (forall a sep b : str,
     Forall (fun c => Unicode.isdigit c = false /\ c <> period) sep ->
     numeric_str (a ++ sep ++ b) = numeric_str a ++ numeric_str b) /\
  (forall a sep b : str,
     Forall decimal a -> Forall decimal b -> a ++ b <> [] ->
     Forall (fun c => Unicode.isdigit c = false /\ c <> period) sep ->
     PyFloat.float (numeric_str (a ++ sep ++ b))
     = Some (PyFloat.of_decimal
               (digits_value a * 10 ^ Z.of_nat (List.length b) + digits_value b) 0)) /\
  numeric_str (str_of "Approximately 140" ++ [0x2013%N] ++ str_of "150")
  = str_of "140150" /\
  PyFloat.float (str_of "140150") = Some (double_of_int 140150) /\
  float_gt (double_of_int 140150) (double_of_int ceiling) = true /\
  (forall w : world,
     get_total_production_from_llm
       (str_of "Approximately 140" ++ [0x2013%N] ++ str_of "150") w
     = (Return (PyInt fallback), warned w)).
Proof.
  assert (Hfuse : forall a sep b : str,
     Forall (fun c => Unicode.isdigit c = false /\ c <> period) sep ->
     numeric_str (a ++ sep ++ b) = numeric_str a ++ numeric_str b).
  { intros a sep b Hsep. rewrite !numeric_str_app.
    rewrite (numeric_str_dropped sep); [reflexivity|].
    eapply Forall_impl; [|exact Hsep].
    intros c Hc. apply keep_false_iff. exact Hc. }
  split; [exact Hfuse|]. split; [|split; [|split; [|split]]].
  - intros a sep b Ha Hb Hne Hsep. rewrite (Hfuse a sep b Hsep).
    rewrite !numeric_str_kept
      by (eapply Forall_impl; [|eassumption]; exact decimal_keep).
    rewrite float_integer; [|apply Forall_app; split; assumption | exact Hne].
    rewrite digits_value_app. reflexivity.
  - vm_compute. reflexivity.
  - vm_compute. reflexivity.
  - vm_compute. reflexivity.
  - intros w. apply run_clamped with (v := double_of_int 140150).
    + vm_compute. reflexivity.
    + vm_compute. reflexivity.
Qed.

Lemma range_fused_witness :
  numeric_str (str_of "140" ++ [0x2013%N] ++ str_of "150")
  = numeric_str (str_of "140") ++ numeric_str (str_of "150").
Proof.
  apply (proj1 range_fused (str_of "140") [0x2013%N] (str_of "150")).
  apply dropped_by_forallb. vm_compute. reflexivity.
Defined.

(** C10. A digit run too long for the float range parses to positive
    infinity: a literal whose value is at least [2 ^ 1024] does, so every
    run of 309 or more nines does, 400 nines among them.  Infinity exceeds
    500, so the call prints the warning and returns the finite fallback 145,
    not an infinite value and not an error. *)
Theorem overflow_falls_back :
  (forall (raw_text : str) (w : world),
     PyFloat.float (numeric_str raw_text) = Some (S754_infinity false) ->
     get_total_production_from_llm raw_text w
     = (Return (PyInt fallback), warned w)) /\
  (forall (m : Z) (nf : nat),
     2 ^ emax * 10 ^ Z.of_nat nf <= m ->
     PyFloat.of_decimal m nf = S754_infinity false) /\
  (forall (n : nat) (w : world),
     (309 <= n)%nat ->
     PyFloat.float (numeric_str (repeat 57%N n)) = Some (S754_infinity false) /\
     get_total_production_from_llm (repeat 57%N n) w
     = (Return (PyInt fallback), warned w)) /\
  get_total_production_from_llm (repeat 57%N 400) w0
  = (Return (PyInt 145), warned w0).
Proof.
  assert (H1 : forall (raw_text : str) (w : world),
     PyFloat.float (numeric_str raw_text) = Some (S754_infinity false) ->
     get_total_production_from_llm raw_text w
     = (Return (PyInt fallback), warned w)).
  { intros raw_text w H. apply (run_clamped raw_text w _ H).
    rewrite double_of_ceiling. reflexivity. }
  assert (H2 : forall (m : Z) (nf : nat),
     2 ^ emax * 10 ^ Z.of_nat nf <= m ->
     PyFloat.of_decimal m nf = S754_infinity false).
  { intros m nf H. unfold PyFloat.of_decimal.
    apply round_quotient_overflow; [apply Z.pow_pos_nonneg; lia | exact H]. }
  assert (H3 : forall n : nat, (309 <= n)%nat ->
     PyFloat.float (numeric_str (repeat 57%N n)) = Some (S754_infinity false)).
  { intros n Hn.
    rewrite numeric_str_kept
      by (eapply Forall_impl; [exact decimal_keep | apply nines_decimal]).
    rewrite float_integer;
      [|apply nines_decimal | destruct n; [lia | discriminate]].
    f_equal. apply H2. rewrite digits_value_nines.
    change (Z.of_nat 0) with 0. rewrite Z.pow_0_r, Z.mul_1_r.
    pose proof pow10_309 as Hp.
    assert (10 ^ 309 <= 10 ^ Z.of_nat n) by (apply Z.pow_le_mono_r; lia).
    lia. }
  split; [exact H1|]. split; [exact H2|]. split.
  - intros n w Hn. split; [exact (H3 n Hn)|]. apply H1. exact (H3 n Hn).
  - apply H1. apply H3. repeat constructor.
Qed.

Lemma overflow_falls_back_witness :
  PyFloat.float (numeric_str (repeat 57%N 400)) = Some (S754_infinity false) /\
  get_total_production_from_llm (repeat 57%N 400) w0
  = (Return (PyInt fallback), warned w0).
Proof.
  assert (H : PyFloat.float (numeric_str (repeat 57%N 400))
              = Some (S754_infinity false)) by (vm_compute; reflexivity).
  split; [exact H|].
  exact (proj1 overflow_falls_back (repeat 57%N 400) w0 H).
Defined.

(** C2 as the specification words it fails: with 145,000,000 as the number
    of million tons, the share of each of 10 centres is 14,500,000,000,000
    tons, not 14,500,000. *)
Lemma per_center_example_off_by_million :
  per_center (PyInt 145000000) 10
    = PerCenter (PyFloat (double_of_int 14500000000000)) /\
  per_center (PyInt 145000000) 10 <> PerCenter (PyFloat (double_of_int 14500000)).
Proof.
  split.
  - vm_compute. reflexivity.
  - vm_compute. discriminate.
Qed.

(** C2, as amended.  With no centre the division is never reached: both
    [per_center] and [main] stop at the test of line 112, whatever the
    estimate or the reply is.  Otherwise the estimate is multiplied by
    1,000,000 and the product is divided by the number of centres; for an
    int estimate the product is exact and the quotient is rounded once.
    [per_center(145, 10)] is 14,500,000. *)
Theorem per_center_spec :
  (forall x : pynum, per_center x 0 = ZeroCenters) /\
  (forall (commod_name : string) (llm_output : str) (w : world),
     main commod_name 0 llm_output w
     = (Return None,
        {| api_key := api_key w;
           stdout := stdout w
                     ++ [String.append "No centres found producing " commod_name] |})) /\
  (forall (x : pynum) (n : Z),
     n <> 0 ->
     per_center x n
     = match py_mul x (PyInt 1000000) with
       | Raise e => DivisionRaised e
       | Return tons =>
           match py_truediv tons (PyInt n) with
           | Raise e => DivisionRaised e
           | Return share => PerCenter share
           end
       end) /\
  (forall x n : Z,
     0 <= x -> 0 < n ->
     is_finite (round_quotient false (x * 1000000) n) = true ->
     per_center (PyInt x) n
     = PerCenter (PyFloat (round_quotient false (x * 1000000) n))) /\
  per_center (PyInt 145) 10 = PerCenter (PyFloat (double_of_int 14500000)) /\
  (F2Q (double_of_int 14500000) == inject_Z 14500000)%Q.
Proof.
  split; [reflexivity|]. split; [reflexivity|]. split; [|split; [|split]].
  - intros x n Hn. unfold per_center, per_centre_production.
    apply Z.eqb_neq in Hn. rewrite Hn.
    destruct (py_mul x (PyInt 1000000)) as [tons|e]; [|reflexivity].
    destruct (py_truediv tons (PyInt n)) as [share|e]; reflexivity.
  - intros x n Hx Hn Hfin. unfold per_center, per_centre_production.
    assert (En : (n =? 0) = false) by (apply Z.eqb_neq; lia).
    rewrite En. cbn [py_mul py_truediv]. rewrite En.
    assert (Ex : (x * 1000000 <? 0) = false) by (apply Z.ltb_ge; lia).
    assert (En' : (n <? 0) = false) by (apply Z.ltb_ge; lia).
    rewrite Ex, En'. cbn [xorb].
    rewrite (Z.abs_eq (x * 1000000)) by lia. rewrite (Z.abs_eq n) by lia.
    rewrite Hfin. reflexivity.
  - vm_compute. reflexivity.
  - vm_compute. reflexivity.
Qed.

Lemma per_center_spec_witness :
  per_center (PyInt 145) 10
  = PerCenter (PyFloat (round_quotient false (145 * 1000000) 10)).
Proof.
  apply (proj1 (proj2 (proj2 (proj2 per_center_spec))) 145 10).
  - lia.
  - lia.
  - vm_compute. reflexivity.
Defined.

(** * The whole call: the reply of the API (lines 62-78) *)

Lemma str_eqb_eq (a b : str) : str_eqb a b = true <-> a = b.
Proof.
  revert b. induction a as [|x a IH]; intros [|y b]; simpl;
    try (split; [discriminate | discriminate]); [tauto|].
  rewrite andb_true_iff, N.eqb_eq, IH. split.
  - intros [-> ->]. reflexivity.
  - intros [= -> ->]. auto.
Qed.

Lemma estimate_of_numeric_str (llm_output : str) :
  get_total_production_from_llm llm_output = estimate_of (numeric_str llm_output).
Proof. reflexivity. Qed.

Lemma keep_item_char (c : char) : keep_item (JStr [c]) = Ok (keep c).
Proof.
  unfold keep_item, keep, str_isdigit. cbn [forallb str_eqb].
  rewrite !andb_true_r. reflexivity.
Qed.

Lemma filter_items_chars (s : str) :
  filter_items (List.map (fun c => JStr [c]) s)
  = Ok (List.map (fun c => JStr [c]) (numeric_str s)).
Proof.
  induction s as [|c s IH]; [reflexivity|].
  cbn [List.map filter_items]. rewrite keep_item_char, IH.
  unfold numeric_str. cbn [List.filter]. destruct (keep c); reflexivity.
Qed.

Lemma join_chars (s : str) : join (List.map (fun c => JStr [c]) s) = Ok s.
Proof.
  induction s as [|c s IH]; [reflexivity|].
  cbn [List.map join]. rewrite IH. reflexivity.
Qed.

Lemma keep_item_str (s : str) :
  keep_item (JStr s) = Ok true -> forallb keep s = true.
Proof.
  unfold keep_item. intros [= H]. apply orb_true_iff in H. destruct H as [H|H].
  - destruct s as [|c s]; [discriminate|]. unfold str_isdigit in H.
    apply forallb_forall. intros x Hx. unfold keep.
    rewrite (proj1 (forallb_forall _ _) H x Hx). reflexivity.
  - apply str_eqb_eq in H. subst s. cbn [forallb]. unfold keep.
    rewrite N.eqb_refl, orb_true_r. reflexivity.
Qed.

(** X14. Line 81 never fails in [join], and what it joins is numeric: every
    item the filter lets through is a string of digits or a period, so, for
    a content of any shape, [numeric_str] exists whenever the filter did not
    raise and holds digits and periods only. *)
Theorem kept_items_join (items kept : list json) :
  filter_items items = Ok kept ->
  exists s, join kept = Ok s /\ forallb keep s = true.
Proof.
  revert kept. induction items as [|x items IH]; intros kept.
  - intros [= <-]. exists []. split; reflexivity.
  - cbn [filter_items]. destruct (keep_item x) as [b|e] eqn:Ek; [|discriminate].
    destruct (filter_items items) as [rest|e]; [|discriminate].
    destruct (IH rest eq_refl) as (s & Hs & Hk).
    destruct b; intros [= <-]; [|exists s; split; assumption].
    destruct x as [| | | |s0| |]; try discriminate Ek.
    cbn [join]. rewrite Hs. exists (s0 ++ s). split; [reflexivity|].
    rewrite forallb_app, (keep_item_str s0 Ek), Hk. reflexivity.
Qed.

Lemma estimate_of_range (numeric_str : str) (w : world) (x : pynum) :
  fst (estimate_of numeric_str w) = Return x ->
  num_is_finite x = true /\
  (0 <= num_value x)%Q /\ (num_value x <= inject_Z ceiling)%Q.
Proof.
  unfold estimate_of.
  destruct numeric_str as [|c s]; [discriminate|].
  destruct (PyFloat.float (c :: s)) as [v|] eqn:Ef; [|discriminate].
  destruct (float_gt v (double_of_int ceiling)) eqn:Eg.
  - intros [= <-]. split; [reflexivity|]. unfold Qle; simpl. lia.
  - intros [= <-]. apply not_above_ceiling; [|exact Eg].
    exact (float_rounded (c :: s) v Ef).
Qed.

(** What lines 82-92 return: the int fallback, or a finite parsed float that
    is not above 500. *)
Lemma estimate_of_shape (numeric_str : str) (w : world) (x : pynum) :
  fst (estimate_of numeric_str w) = Return x ->
  x = PyInt fallback \/
  exists v, x = PyFloat v /\ rounded prec false v /\ is_finite v = true /\
            (F2Q v <= inject_Z ceiling)%Q.
Proof.
  unfold estimate_of.
  destruct numeric_str as [|c s]; [discriminate|].
  destruct (PyFloat.float (c :: s)) as [v|] eqn:Ef; [|discriminate].
  destruct (float_gt v (double_of_int ceiling)) eqn:Eg.
  - intros [= <-]. left. reflexivity.
  - intros [= <-]. right. exists v.
    pose proof (float_rounded (c :: s) v Ef) as Hr.
    destruct (not_above_ceiling v Hr Eg) as (Hfin & _ & Hle). auto.
Qed.

Section CallFacts.
Variable to_text : json -> string.

#[local] Abbreviation call := (get_total_production_from_llm_response to_text).

(** The two prints that open the call. *)
Lemma call_preamble (r : response) (w : world) :
  call r w
  = (response_json <~ match json_body r with
                      | Some j => pret j
                      | None => throw ValueError_decoding_JSON
                      end ;;
     has_error <~ pure (contains (str_of "error") response_json) ;;
     if has_error then
       err <~ pure (getitem response_json (str_of "error")) ;;
       throw (ValueError_API_error err)
     else
       has_choices <~ pure (contains (str_of "choices") response_json) ;;
       if negb has_choices then throw ValueError_choices_not_found
       else
         choices <~ pure (getitem response_json (str_of "choices")) ;;
         choice <~ pure (getitem_0 choices) ;;
         message <~ pure (getitem choice (str_of "message")) ;;
         llm_output <~ pure (getitem message (str_of "content")) ;;
         print_value to_text "Raw LLM output:" llm_output ;;~
         items <~ pure (iterate llm_output) ;;
         kept <~ pure (filter_items items) ;;
         numeric_str <~ pure (join kept) ;;
         of_M (estimate_of numeric_str)) (logged w (preamble to_text r)).
Proof.
  unfold get_total_production_from_llm_response, print_value, pbind at 1 2, of_M, print.
  cbn [fst snd]. unfold logged, preamble. cbn [api_key stdout].
  rewrite <- app_assoc. reflexivity.
Qed.

(** X1. A reply of the usual shape is handled as its content is: when the
    decoded body is a dict with no "error" key whose "choices" is a list
    starting with a dict whose "message" is a dict whose "content" is the
    string [s], the call prints the status, the body and the content and
    then does exactly what lines 81-92 do on [s].  The status code is not
    looked at: the same holds for a status of 500. *)
Theorem usual_reply_is_extraction (r : response) (w : world)
    (d choice message : list (str * json)) (others : list json) (s : str) :
  json_body r = Some (JDict d) ->
  dict_get d (str_of "error") = None ->
  dict_get d (str_of "choices") = Some (JList (JDict choice :: others)) ->
  dict_get choice (str_of "message") = Some (JDict message) ->
  dict_get message (str_of "content") = Some (JStr s) ->
  call r w
  = of_M (get_total_production_from_llm s)
      (logged w (preamble to_text r ++ [raw_output_line to_text (JStr s)])).
Proof.
  intros Hb He Hc Hm Hs. rewrite call_preamble, Hb.
  unfold pbind, pure, pret, contains, getitem, getitem_0, iterate.
  rewrite He, Hc. cbn [negb]. rewrite Hm, Hs.
  unfold print_value, of_M at 1, print. cbn [fst snd].
  rewrite filter_items_chars, join_chars, estimate_of_numeric_str.
  unfold logged, raw_output_line. cbn [api_key stdout].
  rewrite (app_assoc (stdout w)). reflexivity.
Qed.

(** A number the call returns is one lines 82-92 returned. *)
Lemma call_Ok_inv (r : response) (w : world) (x : pynum) :
  fst (call r w) = Ok x ->
  exists ns w', fst (estimate_of ns w') = Return x.
Proof.
  rewrite call_preamble. unfold pbind, pure, pret, throw.
  destruct (json_body r) as [j|]; [|discriminate].
  destruct (contains (str_of "error") j) as [[|]|]; try discriminate.
  - destruct (getitem j (str_of "error")); discriminate.
  - destruct (contains (str_of "choices") j) as [[|]|]; try discriminate.
    cbn [negb].
    destruct (getitem j (str_of "choices")) as [choices|]; [|discriminate].
    destruct (getitem_0 choices) as [choice|]; [|discriminate].
    destruct (getitem choice (str_of "message")) as [message|]; [|discriminate].
    destruct (getitem message (str_of "content")) as [llm_output|]; [|discriminate].
    unfold print_value, of_M at 1, print. cbn [fst snd].
    destruct (iterate llm_output) as [items|]; [|discriminate].
    destruct (filter_items items) as [kept|]; [|discriminate].
    destruct (join kept) as [ns|]; [|discriminate].
    unfold of_M.
    match goal with |- context [estimate_of ns ?w'] =>
      intros H; exists ns, w'; revert H;
      destruct (estimate_of ns w') as [[y|e] w'']
    end; [|discriminate].
    intros [= <-]. reflexivity.
Qed.

(** X2. Whatever the reply is, a number the call returns is finite,
    non-negative and at most 500; this holds for every shape of body and of
    content, not only for a string content. *)
Theorem call_within_ceiling (r : response) (w : world) (x : pynum) :
  fst (call r w) = Ok x ->
  num_is_finite x = true /\
  (0 <= num_value x)%Q /\ (num_value x <= inject_Z ceiling)%Q.
Proof.
  intros H. destruct (call_Ok_inv r w x H) as (ns & w' & Hns).
  exact (estimate_of_range ns w' x Hns).
Qed.

(** X3. A body that cannot be decoded, or a dict with an "error" key, ends
    the call with the ValueError of line 69 or of line 72 (carrying the
    value of "error") right after the two opening prints, before "choices"
    is looked for and whatever the status code is. *)
Theorem error_reply_raises :
  (forall (r : response) (w : world),
     json_body r = None ->
     call r w = (Exc ValueError_decoding_JSON, logged w (preamble to_text r))) /\
  (forall (r : response) (w : world) (d : list (str * json)) (err : json),
     json_body r = Some (JDict d) ->
     dict_get d (str_of "error") = Some err ->
     call r w = (Exc (ValueError_API_error err), logged w (preamble to_text r))).
Proof.
  split.
  - intros r w Hb. rewrite call_preamble, Hb. reflexivity.
  - intros r w d err Hb He. rewrite call_preamble, Hb.
    unfold pbind, pure, pret, contains, getitem. rewrite He. reflexivity.
Qed.

(** X4. A body that is not a JSON object never gives a number and never the
    ValueError of line 72.  A scalar body, or a list or string in which
    "error" or "choices" occurs, raises TypeError (the subscript of line 72
    or 77, or the [in] test itself); any other list or string raises the
    ValueError of line 75. *)
Theorem non_object_body (r : response) (w : world) (j : json) :
  json_body r = Some j -> is_dict j = false ->
  fst (call r w)
  = match contains (str_of "error") j, contains (str_of "choices") j with
    | Ok false, Ok false => Exc ValueError_choices_not_found
    | _, _ => Exc TypeError
    end.
Proof.
  intros Hb Hd. rewrite call_preamble, Hb.
  unfold pbind, pure, pret, throw.
  destruct j as [| | | |s|l|d]; try reflexivity; try discriminate Hd.
  - cbn [contains getitem].
    destruct (is_infix (str_of "error") s); [reflexivity|].
    destruct (is_infix (str_of "choices") s); reflexivity.
  - cbn [contains getitem].
    destruct (existsb (fun x => is_str x (str_of "error")) l); [reflexivity|].
    destruct (existsb (fun x => is_str x (str_of "choices")) l); reflexivity.
Qed.

(** X5. With "choices" present and no "error", what is missing further down
    surfaces as Python's own exception, not as a ValueError: an empty
    "choices" list raises IndexError, a first choice without "message"
    raises KeyError. *)
Theorem missing_choice_or_message :
  (forall (r : response) (w : world) (d : list (str * json)),
     json_body r = Some (JDict d) ->
     dict_get d (str_of "error") = None ->
     dict_get d (str_of "choices") = Some (JList []) ->
     call r w = (Exc IndexError, logged w (preamble to_text r))) /\
  (forall (r : response) (w : world) (d choice : list (str * json))
          (others : list json),
     json_body r = Some (JDict d) ->
     dict_get d (str_of "error") = None ->
     dict_get d (str_of "choices") = Some (JList (JDict choice :: others)) ->
     dict_get choice (str_of "message") = None ->
     call r w
     = (Exc (KeyError (JStr (str_of "message"))), logged w (preamble to_text r))).
Proof.
  split.
  - intros r w d Hb He Hc. rewrite call_preamble, Hb.
    unfold pbind, pure, pret, contains, getitem, getitem_0.
    rewrite He, Hc. reflexivity.
  - intros r w d choice others Hb He Hc Hm. rewrite call_preamble, Hb.
    unfold pbind, pure, pret, contains, getitem, getitem_0.
    rewrite He, Hc. cbn [negb]. rewrite Hm. reflexivity.
Qed.

(** X6. A content that is not a string: a null or a number is printed and
    then raises TypeError (it cannot be iterated); a list is filtered item
    by item, and a list that starts with an item that is no string (such as
    a dict of a multi-part content) raises AttributeError; no number is
    returned in either case. *)
Theorem non_string_content (r : response) (w : world)
    (d choice message : list (str * json)) (others : list json)
    (content : json) :
  json_body r = Some (JDict d) ->
  dict_get d (str_of "error") = None ->
  dict_get d (str_of "choices") = Some (JList (JDict choice :: others)) ->
  dict_get choice (str_of "message") = Some (JDict message) ->
  dict_get message (str_of "content") = Some content ->
  (is_scalar content = true ->
   call r w
   = (Exc TypeError,
      logged w (preamble to_text r ++ [raw_output_line to_text content]))) /\
  (forall (x : json) (items : list json),
     content = JList (x :: items) -> (forall s, x <> JStr s) ->
     call r w
     = (Exc AttributeError,
        logged w (preamble to_text r ++ [raw_output_line to_text content]))).
Proof.
  intros Hb He Hc Hm Hs.
  assert (Hcall : call r w
    = (items <~ pure (iterate content) ;;
       kept <~ pure (filter_items items) ;;
       numeric_str <~ pure (join kept) ;;
       of_M (estimate_of numeric_str))
        (logged w (preamble to_text r ++ [raw_output_line to_text content]))).
  { rewrite call_preamble, Hb.
    unfold pbind at 1 2 3 4 5 6 7, pure, pret, contains, getitem, getitem_0.
    rewrite He, Hc. cbn [negb]. rewrite Hm, Hs.
    unfold print_value, of_M at 1, print. cbn [fst snd].
    unfold logged, raw_output_line. cbn [api_key stdout].
    rewrite (app_assoc (stdout w)). reflexivity. }
  rewrite Hcall. split.
  - intros Hscalar. destruct content; try discriminate Hscalar; reflexivity.
  - intros x items -> Hx. unfold pbind, pure. cbn [iterate filter_items].
    destruct x; try reflexivity. exfalso. exact (Hx s eq_refl).
Qed.

End CallFacts.

(** * The arithmetic of [main] never fails (lines 120-121) *)

Lemma shr_fexp_bounds (m e : Z) (l : location) :
  0 <= m ->
  0 <= shr_m (fst (shr_fexp prec emax m e l)) /\
  snd (shr_fexp prec emax m e l) <= Z.max e (fexp prec emax (Zdigits2 m + e)) /\
  Zdigits2 (shr_m (fst (shr_fexp prec emax m e l))) + snd (shr_fexp prec emax m e l)
  <= Z.max (Zdigits2 m + e) (fexp prec emax (Zdigits2 m + e)).
Proof.
  intros Hm. unfold shr_fexp, shr.
  pose proof (Zdigits2_nonneg m) as Hd.
  destruct (fexp prec emax (Zdigits2 m + e) - e) as [|n|n] eqn:En; cbn [fst snd].
  - rewrite shr_m_of_loc. lia.
  - destruct (iter_shr_1_digits n (shr_record_of_loc m l)) as [H D];
      [rewrite shr_m_of_loc; exact Hm|].
    rewrite shr_m_of_loc in D. split; [exact H|]. rewrite D. lia.
  - rewrite shr_m_of_loc. lia.
Qed.

(** A rounding of [mx * 2 ^ ex] with [mx * 2 ^ ex < 2 ^ G] stays finite and
    below [2 ^ (G + 1)]. *)
Lemma binary_round_aux_below (mx ex : Z) (lx : location) (G : Z) :
  0 <= mx -> ex <= emax - prec -> Zdigits2 mx + ex <= G ->
  -1074 < G -> G <= emax - 1 ->
  finite_below (G + 1) (binary_round_aux prec emax false mx ex lx).
Proof.
  intros Hmx Hex HG Hlo Hhi. unfold binary_round_aux.
  destruct (shr_fexp_bounds mx ex lx Hmx) as (H1 & E1 & M1).
  destruct (shr_fexp prec emax mx ex lx) as [mrs1 e1]; cbn [fst snd] in H1, E1, M1.
  pose proof (round_nearest_even_nonneg (shr_m mrs1) (loc_of_shr_record mrs1) H1) as H2.
  pose proof (round_nearest_even_digits (shr_m mrs1) (loc_of_shr_record mrs1) H1) as D2.
  set (m2 := round_nearest_even (shr_m mrs1) (loc_of_shr_record mrs1)) in *.
  destruct (shr_fexp_bounds m2 e1 loc_Exact H2) as (H3 & E3 & M3).
  destruct (shr_fexp prec emax m2 e1 loc_Exact) as [mrs2 e2]; cbn [fst snd] in H3, E3, M3.
  rewrite !fexp_unfold in *. unfold emax, prec in *.
  destruct (shr_m mrs2) as [|m|m] eqn:Em; [reflexivity | | lia].
  cbn [Zdigits2] in M3.
  destruct (e2 <=? 1024 - 53) eqn:El.
  - unfold finite_below. split; [reflexivity | lia].
  - apply Z.leb_gt in El. lia.
Qed.

Lemma Zdigits2_mul (a b : Z) :
  0 <= a -> 0 <= b -> Zdigits2 (a * b) <= Zdigits2 a + Zdigits2 b.
Proof.
  intros Ha Hb.
  pose proof (Zdigits2_gt a Ha). pose proof (Zdigits2_gt b Hb).
  pose proof (Zdigits2_nonneg a). pose proof (Zdigits2_nonneg b).
  apply Zdigits2_le; [nia | lia |].
  rewrite Z.pow_add_r by lia. nia.
Qed.

(** The operands of the division, with their quotient below [2 ^ G]. *)
Lemma div_core_below (m1 e1 m2 e2 G : Z) :
  0 < m1 -> 0 < m2 ->
  Zdigits2 m1 + e1 - (Zdigits2 m2 + e2) + 1 <= G ->
  -1074 < G -> G <= emax - 1 ->
  let '(q, e, l) := SFdiv_core_binary prec emax m1 e1 m2 e2 in
  0 <= q /\ e <= emax - prec /\ Zdigits2 q + e <= G.
Proof.
  intros H1 H2 HG Hlo Hhi. unfold SFdiv_core_binary.
  set (d1 := Zdigits2 m1) in *. set (d2 := Zdigits2 m2) in *.
  set (e' := Z.min (fexp prec emax (d1 + e1 - (d2 + e2))) (e1 - e2)).
  set (s := e1 - e2 - e').
  set (m' := match s with Z0 => m1 | Zpos _ => Z.shiftl m1 s | Zneg _ => 0 end).
  assert (Hs : 0 <= s) by (subst s e'; lia).
  assert (Hm' : m' = m1 * 2 ^ s).
  { subst m'. destruct s as [|p|p] eqn:Es; try lia.
    rewrite Z.shiftl_mul_pow2 by lia. reflexivity. }
  assert (Hm'0 : 0 <= m').
  { rewrite Hm'. apply Z.mul_nonneg_nonneg; [lia|]. apply Z.pow_nonneg. lia. }
  pose proof (Z.div_mod m' m2 ltac:(lia)) as Hdm.
  pose proof (Z.mod_pos_bound m' m2 H2) as Hmod.
  pose proof (Z.div_pos m' m2 Hm'0 H2) as Hq0.
  unfold Z.div, Z.modulo in Hdm, Hmod, Hq0.
  destruct (Z.div_eucl m' m2) as [q r].
  assert (He' : e' <= fexp prec emax (d1 + e1 - (d2 + e2))) by (subst e'; lia).
  rewrite fexp_unfold in He'. unfold emax, prec in *.
  split; [exact Hq0|]. split; [lia|].
  assert (Hd1 : 0 < d1) by (subst d1; destruct m1; simpl; lia).
  assert (Hd2 : 0 < d2) by (subst d2; destruct m2; simpl; lia).
  pose proof (Zdigits2_gt m1 ltac:(lia)) as Hm1hi. fold d1 in Hm1hi.
  pose proof (Zdigits2_lower m2 H2) as Hm2lo. fold d2 in Hm2lo.
  destruct (Z.eq_dec q 0) as [-> | Hqnz]; [cbn [Zdigits2]; lia|].
  assert (Hk : Zdigits2 q <= d1 + s - d2 + 1).
  { destruct (Z.le_gt_cases 0 (d1 + s - d2 + 1)) as [Hk0 | Hk0].
    - apply Zdigits2_le; [exact Hq0 | exact Hk0 |].
      assert (Hpow : 2 ^ (d1 + s) = 2 ^ (d1 + s - d2 + 1) * 2 ^ (d2 - 1)).
      { rewrite <- Z.pow_add_r by lia. f_equal. lia. }
      assert (Hm'hi : m' < 2 ^ (d1 + s)).
      { rewrite Hm', Z.pow_add_r by lia.
        apply Z.mul_lt_mono_pos_r; [apply Z.pow_pos_nonneg; lia | exact Hm1hi]. }
      assert (Hp : 0 < 2 ^ (d2 - 1)) by (apply Z.pow_pos_nonneg; lia).
      assert (Hp' : 0 < 2 ^ (d1 + s - d2 + 1)) by (apply Z.pow_pos_nonneg; lia).
      nia.
    - exfalso.
      assert (Hm'hi : m' < 2 ^ (d1 + s)).
      { rewrite Hm', Z.pow_add_r by lia.
        apply Z.mul_lt_mono_pos_r; [apply Z.pow_pos_nonneg; lia | exact Hm1hi]. }
      assert (Hle : 2 ^ (d1 + s) <= 2 ^ (d2 - 1)) by (apply Z.pow_le_mono_r; lia).
      assert (Hq1 : 1 <= q) by lia. nia. }
  subst s. lia.
Qed.

Lemma digits2_iter_xO (m k : positive) :
  Zpos (digits2_pos (Pos.iter xO m k)) = Zpos (digits2_pos m) + Zpos k.
Proof.
  induction k as [|k IH] using Pos.peano_ind.
  - cbn [Pos.iter digits2_pos]. lia.
  - rewrite Pos.iter_succ. cbn [digits2_pos]. lia.
Qed.

(** A canonical mantissa is left as it is by an exact rounding. *)
Lemma binary_round_aux_canonical_exact (s : bool) (m : positive) (e : Z) :
  fexp prec emax (Zpos (digits2_pos m) + e) = e -> e <= emax - prec ->
  binary_round_aux prec emax s (Zpos m) e loc_Exact = S754_finite s m e.
Proof.
  intros Hc He. unfold binary_round_aux, shr_fexp. cbn [Zdigits2].
  rewrite Hc, Z.sub_diag. cbn [shr shr_record_of_loc shr_m loc_of_shr_record
                               round_nearest_even Zdigits2].
  rewrite Hc, Z.sub_diag. cbn [shr shr_record_of_loc shr_m].
  apply Z.leb_le in He. rewrite He. reflexivity.
Qed.

(** The float of a positive int below [2 ^ 53]: finite, positive, at least 1. *)
Lemma double_of_int_small (n : Z) :
  0 < n < 2 ^ prec ->
  exists m e, double_of_int n = S754_finite false m e /\
              Zpos (digits2_pos m) + e = Zdigits2 n.
Proof.
  intros [Hn0 Hn]. destruct n as [|p|p]; try lia.
  assert (Hd : Zpos (digits2_pos p) <= prec).
  { change (Zpos (digits2_pos p)) with (Zdigits2 (Zpos p)).
    apply Zdigits2_le; [lia | unfold prec; lia | exact Hn]. }
  unfold double_of_int, binary_normalize, binary_round, shl_align.
  rewrite fexp_unfold. unfold prec in Hd.
  destruct (Z.max (Z.pos (digits2_pos p) + 0 - 53) (-1074) - 0) as [|k|k] eqn:Ek.
  - exists p, 0. split; [|cbn [Zdigits2]; lia].
    apply binary_round_aux_canonical_exact; [rewrite fexp_unfold; lia | unfold emax, prec; lia].
  - lia.
  - exists (Pos.iter xO p k), (Z.max (Z.pos (digits2_pos p) + 0 - 53) (-1074)).
    pose proof (digits2_iter_xO p k) as Hk.
    split; [|cbn [Zdigits2]; lia].
    apply binary_round_aux_canonical_exact; [rewrite fexp_unfold; lia | unfold emax, prec; lia].
Qed.

Lemma million_float :
  double_of_int 1000000 = S754_finite false 8589934592000000 (-33).
Proof. vm_compute. reflexivity. Qed.

(** What the extraction returns as a float is below [2 ^ 9]. *)
Lemma below_ceiling_magnitude (v : spec_float) :
  rounded prec false v -> is_finite v = true ->
  (F2Q v <= inject_Z ceiling)%Q -> finite_below 9 v.
Proof.
  destruct v as [s|s| |s m e]; cbn [rounded is_finite finite_below];
    try discriminate; [tauto|].
  intros [-> _] _ Hle. split; [reflexivity|].
  pose proof (Zdigits2_lower (Zpos m) ltac:(lia)) as Hlo. cbn [Zdigits2] in Hlo.
  set (d := Zpos (digits2_pos m)) in *.
  assert (Hd : 0 < d) by (subst d; lia).
  unfold Qle, ceiling in Hle.
  destruct (Z.le_gt_cases (d + e) 9) as [H | H]; [exact H | exfalso].
  destruct e as [|p|p]; cbn [F2Q cond_Zopp Qnum Qden inject_Z] in Hle.
  - assert (2 ^ 9 <= 2 ^ (d - 1)) by (apply Z.pow_le_mono_r; lia).
    change (2 ^ 9) with 512 in *. lia.
  - assert (0 < 2 ^ Z.pos p) by (apply Z.pow_pos_nonneg; lia).
    assert (2 ^ 9 <= 2 ^ (d - 1 + Z.pos p)) by (apply Z.pow_le_mono_r; lia).
    rewrite Z.pow_add_r in * by lia. change (2 ^ 9) with 512 in *. nia.
  - rewrite Pos2Z.inj_pow in Hle.
    assert (2 ^ (9 + Z.pos p) <= 2 ^ (d - 1)) by (apply Z.pow_le_mono_r; lia).
    rewrite Z.pow_add_r in * by lia. change (2 ^ 9) with 512 in *.
    assert (0 < 2 ^ Z.pos p) by (apply Z.pow_pos_nonneg; lia). nia.
Qed.

(** Times a million: still finite, below [2 ^ 30]. *)
Lemma times_million_below (v : spec_float) :
  finite_below 9 v ->
  finite_below 30 (SFmul prec emax v (S754_finite false 8589934592000000 (-33))).
Proof.
  destruct v as [s|s| |s m e]; cbn [finite_below]; try contradiction.
  - intros ->. reflexivity.
  - intros [-> Hm]. cbn [SFmul xorb].
    apply (binary_round_aux_below _ _ _ 29); unfold emax, prec; try lia.
    rewrite Pos2Z.inj_mul.
    pose proof (Zdigits2_mul (Zpos m) 8589934592000000 ltac:(lia) ltac:(lia)) as Hd.
    change (Zdigits2 8589934592000000) with 53 in Hd.
    change (Zdigits2 (Zpos m)) with (Zpos (digits2_pos m)) in Hd. lia.
Qed.

(** Divided by a float that is at least 1: still finite, below [2 ^ (G + 1)]. *)
Lemma divided_below (t : spec_float) (m : positive) (e G : Z) :
  finite_below G t -> 1 <= Zpos (digits2_pos m) + e ->
  -1074 < G -> G <= emax - 1 ->
  finite_below (G + 1) (SFdiv prec emax t (S754_finite false m e)).
Proof.
  destruct t as [s|s| |s mt et]; cbn [finite_below]; try contradiction.
  - intros -> _ _ _. reflexivity.
  - intros [-> Ht] Hn Hlo Hhi. cbn [SFdiv xorb].
    pose proof (div_core_below (Zpos mt) et (Zpos m) e G ltac:(lia) ltac:(lia)) as H.
    cbn [Zdigits2] in H. specialize (H ltac:(lia) Hlo Hhi).
    destruct (SFdiv_core_binary prec emax (Z.pos mt) et (Z.pos m) e) as [[q e'] l].
    destruct H as (Hq & He & Hd).
    apply binary_round_aux_below; assumption.
Qed.

Lemma finite_below_is_finite (G : Z) (f : spec_float) :
  finite_below G f -> is_finite f = true /\ (0 <= F2Q f)%Q.
Proof.
  destruct f as [s|s| |s m e]; cbn [finite_below]; try contradiction.
  - intros _. split; [reflexivity|]. unfold Qle; simpl; lia.
  - intros [-> _]. split; [reflexivity|].
    destruct e; unfold Qle; cbn [F2Q cond_Zopp Qnum Qden inject_Z]; lia.
Qed.

(** What the extraction can return and the arithmetic then does. *)
Lemma per_centre_production_finite (total : pynum) (n : Z) :
  (total = PyInt fallback \/
   exists v, total = PyFloat v /\ rounded prec false v /\ is_finite v = true /\
             (F2Q v <= inject_Z ceiling)%Q) ->
  0 < n < 2 ^ prec ->
  exists tons share,
    per_centre_production total n = Return (tons, PyFloat share) /\
    num_is_finite tons = true /\ (0 <= num_value tons)%Q /\
    is_finite share = true /\ (0 <= F2Q share)%Q.
Proof.
  intros Htotal Hn. unfold per_centre_production.
  destruct Htotal as [-> | (v & -> & Hr & Hfin & Hle)].
  - (* int 145: the product is an int, the quotient is rounded once *)
    cbn [py_mul py_truediv].
    assert (En : (n =? 0) = false) by (apply Z.eqb_neq; lia).
    assert (En' : (n <? 0) = false) by (apply Z.ltb_ge; lia).
    rewrite En, En'. change (fallback * 1000000 <? 0) with false. cbn [xorb].
    rewrite (Z.abs_eq n) by lia. change (Z.abs (fallback * 1000000)) with 145000000.
    assert (Hq : finite_below 29 (round_quotient false 145000000 n)).
    { unfold round_quotient.
      pose proof (div_core_below 145000000 0 n 0 28 ltac:(lia) ltac:(lia)) as H.
      change (Zdigits2 145000000) with 28 in H.
      assert (Hdn : 0 < Zdigits2 n) by (destruct n; simpl; lia).
      specialize (H ltac:(lia) ltac:(lia) ltac:(unfold emax; lia)).
      destruct (SFdiv_core_binary prec emax 145000000 0 n 0) as [[q e] l].
      destruct H as (Hq & He & Hd).
      apply (binary_round_aux_below q e l 28); try assumption; unfold emax; lia. }
    destruct (finite_below_is_finite _ _ Hq) as [Hf H0].
    rewrite Hf. eexists. eexists. split; [reflexivity|].
    split; [reflexivity|]. split; [unfold Qle; simpl; lia|]. split; assumption.
  - (* a float: product and quotient are float operations *)
    destruct (double_of_int_small n Hn) as (mn & en & Hfn & Hmag).
    assert (Hdn : 0 < Zdigits2 n) by (destruct n; simpl; lia).
    cbn [py_mul as_float]. unfold float_of_int.
    rewrite million_float. cbn [is_finite].
    pose proof (times_million_below v (below_ceiling_magnitude v Hr Hfin Hle)) as Ht.
    set (t := SFmul prec emax v (S754_finite false 8589934592000000 (-33))) in *.
    cbn [py_truediv as_float]. unfold float_of_int. rewrite Hfn. cbn [is_finite is_zero].
    pose proof (divided_below t mn en 30 Ht ltac:(lia) ltac:(lia) ltac:(unfold emax; lia))
      as Hs.
    destruct (finite_below_is_finite _ _ Ht) as [Htf Ht0].
    destruct (finite_below_is_finite _ _ Hs) as [Hsf Hs0].
    eexists. eexists. split; [reflexivity|].
    cbn [num_is_finite num_value]. auto.
Qed.

(** X7. With at least one centre (and fewer than [2 ^ 53]), [main] fails
    only when the extraction fails, with the extraction's own ValueError:
    the multiplication and the division of lines 120-121 raise neither
    ZeroDivisionError nor OverflowError, and the summary holds an estimate
    of at most 500 and finite, non-negative totals. *)
Theorem main_arithmetic_never_fails (commod_name : string) (num_centres : Z)
    (llm_output : str) (w : world) :
  0 < num_centres < 2 ^ prec ->
  match fst (main commod_name num_centres llm_output w) with
  | Return (Some r) =>
      extract_estimate llm_output w = Return (total_production_million r) /\
      (num_value (total_production_million r) <= inject_Z ceiling)%Q /\
      num_is_finite (total_production_tons r) = true /\
      (0 <= num_value (total_production_tons r))%Q /\
      num_is_finite (per_centre r) = true /\
      (0 <= num_value (per_centre r))%Q
  | Return None => False
  | Raise e =>
      extract_estimate llm_output w = Raise e /\
      (e = ValueError_no_numeric_value \/ exists s, e = ValueError_float s)
  end.
Proof.
  intros Hn. unfold main, extract_estimate.
  assert (En : (num_centres =? 0) = false) by (apply Z.eqb_neq; lia).
  rewrite En. unfold bind, lift, ret.
  unfold get_total_production_from_llm, raise, bind, print, ret.
  destruct (numeric_str llm_output) as [|c s] eqn:Ens.
  { cbn [fst]. split; [reflexivity | left; reflexivity]. }
  destruct (PyFloat.float (c :: s)) as [v|] eqn:Ef.
  2:{ cbn [fst]. split; [reflexivity | right; eexists; reflexivity]. }
  destruct (float_gt v (double_of_int ceiling)) eqn:Eg.
  - destruct (per_centre_production_finite (PyInt fallback) num_centres
                (or_introl eq_refl) Hn) as (tons & share & -> & H1 & H2 & H3 & H4).
    cbn [fst snd total_production_million total_production_tons per_centre
         num_is_finite num_value].
    repeat split; try assumption. unfold Qle; simpl; lia.
  - pose proof (float_rounded _ v Ef) as Hr.
    destruct (not_above_ceiling v Hr Eg) as (Hfin & H0 & Hle).
    destruct (per_centre_production_finite (PyFloat v) num_centres
                (or_intror (ex_intro _ v (conj eq_refl (conj Hr (conj Hfin Hle))))) Hn)
      as (tons & share & -> & H1 & H2 & H3 & H4).
    cbn [fst snd total_production_million total_production_tons per_centre
         num_is_finite num_value].
    repeat split; assumption.
Qed.

(** * [main] from the typed line on (lines 97-121) *)

Lemma lstrip_spaces (ws s : str) :
  Forall (fun c => Unicode.isspace c = true) ws -> lstrip (ws ++ s) = lstrip s.
Proof.
  induction 1 as [|c ws Hc _ IH]; [reflexivity|].
  cbn [app lstrip]. rewrite Hc. exact IH.
Qed.

Lemma lstrip_all_spaces (ws : str) :
  Forall (fun c => Unicode.isspace c = true) ws -> lstrip ws = [].
Proof.
  intros H. rewrite <- (app_nil_r ws). rewrite lstrip_spaces by exact H. reflexivity.
Qed.

(** White space typed after the name does not change what is left of it. *)
Lemma lstrip_rev_spaces (s ws : str) :
  Forall (fun c => Unicode.isspace c = true) ws ->
  lstrip (rev (lstrip (s ++ ws))) = lstrip (rev (lstrip s)).
Proof.
  intros Hws.
  assert (Hrev : Forall (fun c => Unicode.isspace c = true) (rev ws))
    by (apply Forall_rev; exact Hws).
  induction s as [|c s IH].
  - cbn [app]. rewrite (lstrip_all_spaces ws Hws). reflexivity.
  - cbn [app lstrip]. destruct (Unicode.isspace c) eqn:Ec; [exact IH|].
    change (c :: s ++ ws) with ((c :: s) ++ ws).
    rewrite rev_app_distr. apply lstrip_spaces. exact Hrev.
Qed.

Lemma strip_padded (ws1 s ws2 : str) :
  Forall (fun c => Unicode.isspace c = true) ws1 ->
  Forall (fun c => Unicode.isspace c = true) ws2 ->
  strip (ws1 ++ s ++ ws2) = strip s.
Proof.
  intros H1 H2. unfold strip. rewrite (lstrip_spaces ws1 _ H1).
  rewrite (lstrip_rev_spaces s ws2 H2). reflexivity.
Qed.

Section RunFacts.
Variable to_text : json -> string.
Variable lower : str -> str.
Variable code : Type.
Variable code_eq : code -> code -> bool.

#[local] Abbreviation run := (main_run to_text lower code code_eq).

(** X8. White space typed before or after the name is ignored: the run is
    the same as without it. *)
Theorem typed_padding_ignored (ws1 line ws2 : str)
    (df_commods : list (commod_row code)) (df_centres : list (centre_row code))
    (r : response) :
  Forall (fun c => Unicode.isspace c = true) ws1 ->
  Forall (fun c => Unicode.isspace c = true) ws2 ->
  run (ws1 ++ line ++ ws2) df_commods df_centres r
  = run line df_commods df_centres r.
Proof.
  intros H1 H2. unfold main_run. rewrite (strip_padded ws1 line ws2 H1 H2).
  reflexivity.
Qed.

(** X9. Only the first row of the commodity sheet whose lowered name is the
    lowered, stripped line counts: the rows before it that do not match and
    all the rows after it, matching or not, change nothing. *)
Theorem first_matching_row_decides (line : str)
    (before after : list (commod_row code)) (row : commod_row code)
    (df_centres : list (centre_row code)) (r : response) :
  Forall (fun x => lower (Name x) <> lower (strip line)) before ->
  lower (Name row) = lower (strip line) ->
  run line (before ++ row :: after) df_centres r
  = run line [row] df_centres r.
Proof.
  intros Hbefore Hrow. unfold main_run.
  assert (Hf : List.filter
                 (fun x => str_eqb (lower (Name x)) (lower (strip line))) before = []).
  { induction Hbefore as [|x before Hx _ IH]; [reflexivity|].
    cbn [List.filter].
    destruct (str_eqb (lower (Name x)) (lower (strip line))) eqn:E; [|exact IH].
    apply str_eqb_eq in E. contradiction. }
  rewrite filter_app, Hf. cbn [app List.filter].
  assert (E : str_eqb (lower (Name row)) (lower (strip line)) = true)
    by (apply str_eqb_eq; exact Hrow).
  rewrite E. reflexivity.
Qed.

(** X10. Whatever is typed and whatever the sheets and the reply are (with
    fewer than [2 ^ 53] centre rows), a run that fails fails as the call of
    [get_total_production_from_llm] does, with that call's exception: the
    look-ups and the arithmetic of lines 120-121 raise nothing, in
    particular no ZeroDivisionError.  A summary holds an estimate of at most
    500 and finite, non-negative totals. *)
Theorem run_fails_only_in_the_call (line : str)
    (df_commods : list (commod_row code)) (df_centres : list (centre_row code))
    (r : response) (w : world) :
  Z.of_nat (List.length df_centres) < 2 ^ prec ->
  match fst (run line df_commods df_centres r w) with
  | Ok (Some s) =>
      fst (get_total_production_from_llm_response to_text r w)
        = Ok (total_production_million s) /\
      (num_value (total_production_million s) <= inject_Z ceiling)%Q /\
      num_is_finite (total_production_tons s) = true /\
      (0 <= num_value (total_production_tons s))%Q /\
      num_is_finite (per_centre s) = true /\
      (0 <= num_value (per_centre s))%Q
  | Ok None => True
  | Exc e => fst (get_total_production_from_llm_response to_text r w) = Exc e
  end.
Proof.
  intros Hlen. unfold main_run.
  destruct (List.filter _ df_commods) as [|row rows]; [exact I|].
  set (df_filtered := List.filter _ df_centres).
  assert (Hn : Z.of_nat (List.length df_filtered) <= Z.of_nat (List.length df_centres)).
  { apply Nat2Z.inj_le. apply filter_length_le. }
  destruct (Z.of_nat (List.length df_filtered) =? 0) eqn:E0; [exact I|].
  apply Z.eqb_neq in E0. unfold pbind at 1.
  destruct (get_total_production_from_llm_response to_text r w) as [[total|e] w'] eqn:Ecall;
    [|reflexivity].
  assert (Hok : fst (get_total_production_from_llm_response to_text r w) = Ok total)
    by (rewrite Ecall; reflexivity).
  destruct (call_Ok_inv to_text r w total Hok) as (ns & w1 & Hns).
  destruct (estimate_of_range ns w1 total Hns) as (_ & _ & Hle).
  destruct (per_centre_production_finite total (Z.of_nat (List.length df_filtered))
              (estimate_of_shape ns w1 total Hns) ltac:(lia))
    as (tons & share & Hpc & H1 & H2 & H3 & H4).
  unfold pbind, of_M, lift, pret. rewrite Hpc.
  cbn [fst snd total_production_million total_production_tons per_centre
       num_is_finite num_value].
  repeat split; assumption.
Qed.

End RunFacts.

(** * The clamp and the number that is written (lines 85-90) *)

Lemma shr_1_value (s : shr_record) :
  0 <= shr_m s -> shr_m (shr_1 s) = shr_m s / 2.
Proof.
  destruct s as [m r t]; cbn [shr_m].
  destruct m as [|[n|n|]|n]; cbn [shr_1 shr_m]; intros H; try lia;
    try reflexivity.
  - apply (Z.div_unique (Zpos n~1) 2 (Zpos n) 1); lia.
  - apply (Z.div_unique (Zpos n~0) 2 (Zpos n) 0); lia.
Qed.

Lemma pow2_xI (n : positive) : 2 ^ Zpos n~1 = 2 * (2 ^ Zpos n * 2 ^ Zpos n).
Proof.
  rewrite (Pos2Z.inj_xI n).
  replace (2 * Zpos n + 1) with (1 + (Zpos n + Zpos n)) by lia.
  rewrite !Z.pow_add_r by lia. reflexivity.
Qed.

Lemma pow2_xO (n : positive) : 2 ^ Zpos n~0 = 2 ^ Zpos n * 2 ^ Zpos n.
Proof.
  rewrite (Pos2Z.inj_xO n).
  replace (2 * Zpos n) with (Zpos n + Zpos n) by lia.
  rewrite Z.pow_add_r by lia. reflexivity.
Qed.

Lemma iter_shr_1_value (n : positive) : forall s : shr_record,
  0 <= shr_m s -> shr_m (iter_pos shr_1 n s) = shr_m s / 2 ^ Zpos n.
Proof.
  assert (Hp : forall k : positive, 0 < 2 ^ Zpos k)
    by (intros k; apply Z.pow_pos_nonneg; lia).
  induction n as [n IH|n IH|]; intros s Hs; cbn [iter_pos].
  - destruct (shr_1_digits s Hs) as [H1 _].
    destruct (iter_shr_1_digits n _ H1) as [H2 _].
    rewrite (IH _ H2), (IH _ H1), (shr_1_value s Hs), pow2_xI.
    pose proof (Hp n).
    rewrite Z.div_div by lia. rewrite Z.div_div by nia. reflexivity.
  - destruct (iter_shr_1_digits n _ Hs) as [H2 _].
    rewrite (IH _ H2), (IH _ Hs), pow2_xO.
    pose proof (Hp n).
    rewrite Z.div_div by lia. reflexivity.
  - rewrite (shr_1_value s Hs). reflexivity.
Qed.

Lemma shr_1_exact (s : shr_record) :
  0 <= shr_m s -> shr_r s = false -> shr_s s = false -> (2 | shr_m s) ->
  shr_r (shr_1 s) = false /\ shr_s (shr_1 s) = false.
Proof.
  destruct s as [m r t]; cbn [shr_m shr_r shr_s].
  intros Hm -> -> [k Hk].
  destruct m as [|[n|n|]|n]; cbn [shr_1 shr_r shr_s orb]; try lia; auto.
Qed.

Lemma divide_pow2_div (a b m : Z) :
  0 <= a -> 0 <= b -> (2 ^ (a + b) | m) -> (2 ^ b | m / 2 ^ a).
Proof.
  intros Ha Hb [k Hk]. exists k.
  rewrite Hk, Z.pow_add_r by lia.
  replace (k * (2 ^ a * 2 ^ b)) with (k * 2 ^ b * 2 ^ a) by ring.
  apply Z.div_mul. pose proof (Z.pow_pos_nonneg 2 a); lia.
Qed.

Lemma divide_pow2_le (a b m : Z) :
  0 <= a <= b -> (2 ^ b | m) -> (2 ^ a | m).
Proof.
  intros Hab [k Hk]. exists (k * 2 ^ (b - a)).
  rewrite Hk. rewrite <- Z.mul_assoc, <- Z.pow_add_r by lia.
  f_equal. f_equal. lia.
Qed.

Lemma iter_shr_1_exact (n : positive) : forall s : shr_record,
  0 <= shr_m s -> shr_r s = false -> shr_s s = false ->
  (2 ^ Zpos n | shr_m s) ->
  shr_r (iter_pos shr_1 n s) = false /\ shr_s (iter_pos shr_1 n s) = false.
Proof.
  induction n as [n IH|n IH|]; intros s Hs Hr Ht Hdiv; cbn [iter_pos].
  - assert (H2 : (2 | shr_m s)).
    { change 2 with (2 ^ 1) at 1. apply (divide_pow2_le 1 (Zpos n~1)); [lia | exact Hdiv]. }
    destruct (shr_1_exact s Hs Hr Ht H2) as [Hr1 Ht1].
    destruct (shr_1_digits s Hs) as [H1 _].
    assert (Hd1 : (2 ^ (Zpos n + Zpos n) | shr_m (shr_1 s))).
    { rewrite (shr_1_value s Hs). change 2 with (2 ^ 1) at 2.
      apply divide_pow2_div; [lia | lia |].
      replace (1 + (Zpos n + Zpos n)) with (Zpos n~1) by lia. exact Hdiv. }
    destruct (IH _ H1 Hr1 Ht1 (divide_pow2_le (Zpos n) (Zpos n + Zpos n) _ ltac:(lia) Hd1))
      as [Hr2 Ht2].
    destruct (iter_shr_1_digits n _ H1) as [H2' _].
    apply (IH _ H2' Hr2 Ht2).
    rewrite (iter_shr_1_value n _ H1).
    apply divide_pow2_div; [lia | lia | exact Hd1].
  - assert (Hd : (2 ^ (Zpos n + Zpos n) | shr_m s)).
    { replace (Zpos n + Zpos n) with (Zpos n~0) by lia. exact Hdiv. }
    destruct (IH _ Hs Hr Ht (divide_pow2_le (Zpos n) (Zpos n + Zpos n) _ ltac:(lia) Hd))
      as [Hr2 Ht2].
    destruct (iter_shr_1_digits n _ Hs) as [H2' _].
    apply (IH _ H2' Hr2 Ht2).
    rewrite (iter_shr_1_value n _ Hs).
    apply divide_pow2_div; [lia | lia | exact Hd].
  - apply shr_1_exact; try assumption.
Qed.

Lemma loc_of_record_of_loc (m : Z) (l : location) :
  loc_of_shr_record (shr_record_of_loc m l) = l.
Proof. destruct l as [|[]]; reflexivity. Qed.

Lemma loc_exact_flags (s : shr_record) :
  shr_r s = false -> shr_s s = false -> loc_of_shr_record s = loc_Exact.
Proof. destruct s as [m r t]; cbn. intros -> ->. reflexivity. Qed.

(** One alignment step: the mantissa is divided by a power of two, the
    exponent grows by as much, and nothing is lost when the division is
    exact. *)
Lemma shr_fexp_value (m e : Z) (l : location) :
  0 <= m -> e <= fexp prec emax (Zdigits2 m + e) ->
  exists n,
    0 <= n /\ n = fexp prec emax (Zdigits2 m + e) - e /\
    snd (shr_fexp prec emax m e l) = e + n /\
    shr_m (fst (shr_fexp prec emax m e l)) = m / 2 ^ n /\
    (l = loc_Exact -> (2 ^ n | m) ->
     loc_of_shr_record (fst (shr_fexp prec emax m e l)) = loc_Exact).
Proof.
  intros Hm He. exists (fexp prec emax (Zdigits2 m + e) - e).
  split; [lia|]. split; [reflexivity|]. unfold shr_fexp, shr.
  destruct (fexp prec emax (Zdigits2 m + e) - e) as [|n|n] eqn:En; cbn [fst snd]; try lia.
  - rewrite shr_m_of_loc, Z.pow_0_r, Z.div_1_r, loc_of_record_of_loc.
    repeat split; auto. lia.
  - split; [reflexivity|]. split.
    + rewrite iter_shr_1_value by (rewrite shr_m_of_loc; exact Hm).
      rewrite shr_m_of_loc. reflexivity.
    + intros -> Hdiv. cbn [shr_record_of_loc].
      destruct (iter_shr_1_exact n {| shr_m := m; shr_r := false; shr_s := false |}
                  Hm eq_refl eq_refl Hdiv) as [Hr Ht].
      apply loc_exact_flags; assumption.
Qed.

(** The two alignments and the rounding between them, step by step. *)
Lemma binary_round_aux_steps (s : bool) (mx ex : Z) (lx : location) :
  0 <= mx -> ex <= fexp prec emax (Zdigits2 mx + ex) ->
  exists n1 m2 n2,
    0 <= n1 /\ canonical (mx / 2 ^ n1) (ex + n1) /\
    mx / 2 ^ n1 <= m2 <= mx / 2 ^ n1 + 1 /\
    (lx = loc_Exact -> (2 ^ n1 | mx) -> m2 = mx / 2 ^ n1) /\
    (n2 = 0 \/ n2 = 1) /\ m2 = 2 ^ n2 * (m2 / 2 ^ n2) /\
    canonical (m2 / 2 ^ n2) (ex + n1 + n2) /\
    binary_round_aux prec emax s mx ex lx
    = match m2 / 2 ^ n2 with
      | 0 => S754_zero s
      | Zpos m =>
          if ex + n1 + n2 <=? emax - prec
          then S754_finite s m (ex + n1 + n2) else S754_infinity s
      | Zneg _ => S754_nan
      end.
Proof.
  intros Hmx Hex. unfold binary_round_aux.
  destruct (shr_fexp_value mx ex lx Hmx Hex) as (n1 & Hn1 & _ & Es1 & Em1 & Hexact1).
  pose proof (shr_fexp_canonical mx ex lx Hmx Hex) as [H1 C1].
  destruct (shr_fexp prec emax mx ex lx) as [mrs1 e1]; cbn [fst snd] in *.
  subst e1. rewrite Em1 in C1.
  pose proof (round_nearest_even_nonneg (shr_m mrs1) (loc_of_shr_record mrs1) H1) as H2.
  pose proof (round_nearest_even_digits (shr_m mrs1) (loc_of_shr_record mrs1) H1) as D2.
  pose proof (round_nearest_even_le (shr_m mrs1) (loc_of_shr_record mrs1)) as B2.
  assert (X2 : loc_of_shr_record mrs1 = loc_Exact ->
               round_nearest_even (shr_m mrs1) (loc_of_shr_record mrs1) = shr_m mrs1)
    by (intros ->; reflexivity).
  set (m2 := round_nearest_even (shr_m mrs1) (loc_of_shr_record mrs1)) in *.
  rewrite Em1 in *. set (m1 := mx / 2 ^ n1) in *.
  assert (He2 : ex + n1 <= fexp prec emax (Zdigits2 m2 + (ex + n1))).
  { rewrite fexp_unfold in *. lia. }
  destruct (shr_fexp_value m2 (ex + n1) loc_Exact H2 He2)
    as (n2 & Hn2 & En2 & Es2 & Em2 & _).
  pose proof (shr_fexp_canonical m2 (ex + n1) loc_Exact H2 He2) as [H3 C3].
  destruct (shr_fexp prec emax m2 (ex + n1) loc_Exact) as [mrs2 e2]; cbn [fst snd] in *.
  subst e2. rewrite Em2 in *.
  assert (Hn2' : n2 = 0 \/ n2 = 1).
  { rewrite fexp_unfold in *. lia. }
  exists n1, m2, n2.
  split; [exact Hn1|]. split; [split; assumption|]. split; [exact B2|].
  split; [intros Hl Hd; apply X2; apply Hexact1; assumption|].
  split; [exact Hn2'|]. split; [|split; [split; assumption | reflexivity]].
  destruct Hn2' as [-> | ->].
  - rewrite Z.pow_0_r, Z.div_1_r. lia.
  - (* the mantissa went up to the next power of two *)
    assert (Hd : Zdigits2 m2 = Zdigits2 m1 + 1) by (rewrite fexp_unfold in *; lia).
    pose proof (Zdigits2_nonneg m1) as Hd1.
    assert (Hd1' : 0 < Zdigits2 m1) by (rewrite fexp_unfold in *; lia).
    pose proof (Zdigits2_gt m1 H1) as Hhi.
    assert (Hm2pos : 0 < m2) by (destruct m2; simpl in Hd; lia).
    pose proof (Zdigits2_lower m2 Hm2pos) as Hlo. rewrite Hd in Hlo.
    replace (Zdigits2 m1 + 1 - 1) with (Zdigits2 m1) in Hlo by lia.
    assert (Em : m2 = 2 ^ Zdigits2 m1) by lia.
    rewrite Em. remember (Zdigits2 m1 - 1) as k eqn:Ek.
    replace (Zdigits2 m1) with (k + 1) by lia.
    rewrite Z.pow_add_r by lia. change (2 ^ 1) with 2.
    rewrite Z.div_mul by lia. ring.
Qed.

(** What the division hands to the rounding. *)
Lemma div_core_value (n d : Z) :
  0 <= n -> 0 < d ->
  let '(q, e, l) := SFdiv_core_binary prec emax n 0 d 0 in
  e <= 0 /\ q * d <= n * 2 ^ (- e) < (q + 1) * d /\
  (q * d = n * 2 ^ (- e) -> l = loc_Exact).
Proof.
  intros Hn Hd. unfold SFdiv_core_binary.
  set (e' := Z.min (fexp prec emax (Zdigits2 n + 0 - (Zdigits2 d + 0))) (0 - 0)).
  set (s := 0 - 0 - e').
  set (m' := match s with Z0 => n | Zpos _ => Z.shiftl n s | Zneg _ => 0 end).
  assert (Hs : 0 <= s) by (subst s e'; lia).
  assert (Hm' : m' = n * 2 ^ s).
  { subst m'. destruct s as [|p|p] eqn:Es; try lia.
    rewrite Z.shiftl_mul_pow2 by lia. reflexivity. }
  pose proof (Z.div_mod m' d ltac:(lia)) as Hdm.
  pose proof (Z.mod_pos_bound m' d Hd) as Hmod.
  unfold Z.div, Z.modulo in Hdm, Hmod.
  destruct (Z.div_eucl m' d) as [q r].
  replace (- e') with s by (subst s; lia). rewrite <- Hm'.
  split; [subst e'; lia|]. split; [nia|].
  intros Heq. assert (r = 0) by nia. subst r. apply new_location_zero.
Qed.

(** The quotient of two positive integers, rounded: the mantissa [m1] that
    the first alignment keeps, at exponent [n1 - s], is the quotient cut
    off; the rounding adds at most one to it, and nothing when the quotient
    was exact; the second alignment halves an even mantissa at most once. *)
Lemma round_quotient_steps (sg : bool) (n d : Z) :
  0 < n -> 0 < d ->
  exists s n1 m1 m2 n2,
    0 <= s /\ 0 <= n1 /\ (n2 = 0 \/ n2 = 1) /\
    m1 * 2 ^ n1 * d <= n * 2 ^ s /\ n * 2 ^ s < (m1 + 1) * 2 ^ n1 * d /\
    canonical m1 (n1 - s) /\ m1 <= m2 <= m1 + 1 /\
    (m1 * 2 ^ n1 * d = n * 2 ^ s -> m2 = m1) /\
    m2 = 2 ^ n2 * (m2 / 2 ^ n2) /\ canonical (m2 / 2 ^ n2) (n1 - s + n2) /\
    round_quotient sg n d
    = match m2 / 2 ^ n2 with
      | 0 => S754_zero sg
      | Zpos m =>
          if n1 - s + n2 <=? emax - prec
          then S754_finite sg m (n1 - s + n2) else S754_infinity sg
      | Zneg _ => S754_nan
      end.
Proof.
  intros Hn Hd. unfold round_quotient.
  pose proof (div_core_value n d ltac:(lia) Hd) as Hv.
  pose proof (div_core_canonical n d Hn Hd) as Hc.
  destruct (SFdiv_core_binary prec emax n 0 d 0) as [[q e] l].
  destruct Hv as (He & Hq & Hexact). destruct Hc as (Hq0 & Hcan).
  destruct (binary_round_aux_steps sg q e l Hq0 Hcan)
    as (n1 & m2 & n2 & Hn1 & C1 & B2 & X2 & Hn2 & E2 & C3 & Hres).
  assert (Hp : 0 < 2 ^ n1) by (apply Z.pow_pos_nonneg; lia).
  pose proof (Z.div_mod q (2 ^ n1) ltac:(lia)) as Hdm.
  pose proof (Z.mod_pos_bound q (2 ^ n1) Hp) as Hmod.
  set (m1 := q / 2 ^ n1) in *.
  exists (- e), n1, m1, m2, n2.
  replace (n1 - - e) with (e + n1) by lia.
  replace (e + n1 + n2) with (e + n1 + n2) in Hres by lia.
  split; [lia|]. split; [exact Hn1|]. split; [exact Hn2|].
  split; [nia|]. split; [nia|]. split; [exact C1|]. split; [exact B2|].
  split.
  { intros Heq. assert (Hqe : q = m1 * 2 ^ n1) by nia.
    apply X2.
    - apply Hexact. nia.
    - exists m1. exact Hqe. }
  split; [exact E2|]. split; [exact C3 | exact Hres].
Qed.

Lemma F2Q_le_neg (m : positive) (t : Z) :
  0 < t -> Zpos m <= 500 * 2 ^ t ->
  (F2Q (S754_finite false m (- t)) <= inject_Z ceiling)%Q.
Proof.
  intros Ht Hm. destruct t as [|p|p]; try lia.
  cbn [Z.opp F2Q cond_Zopp]. unfold Qle, ceiling. cbn [Qnum Qden inject_Z].
  rewrite Pos2Z.inj_pow. lia.
Qed.

Lemma F2Q_gt_neg (m : positive) (t : Z) :
  0 < t -> 500 * 2 ^ t < Zpos m ->
  (inject_Z ceiling < F2Q (S754_finite false m (- t)))%Q.
Proof.
  intros Ht Hm. destruct t as [|p|p]; try lia.
  cbn [Z.opp F2Q cond_Zopp]. unfold Qlt, ceiling. cbn [Qnum Qden inject_Z].
  rewrite Pos2Z.inj_pow. lia.
Qed.

Lemma F2Q_gt_nonneg (m : positive) (e : Z) :
  0 <= e -> 500 < Zpos m ->
  (inject_Z ceiling < F2Q (S754_finite false m e))%Q.
Proof.
  intros He Hm.
  assert (Hp : 0 < 2 ^ e) by (apply Z.pow_pos_nonneg; lia).
  destruct e as [|p|p]; try lia;
    cbn [F2Q cond_Zopp]; unfold Qlt, ceiling; cbn [Qnum Qden inject_Z]; nia.
Qed.

(** A canonical mantissa above the smallest exponent has all its 53 bits. *)
Lemma canonical_normal (m e : Z) :
  canonical m e -> -1074 < e -> 2 ^ 52 <= m.
Proof.
  intros [Hm Hc] He. rewrite fexp_unfold in Hc.
  assert (Hd : Zdigits2 m = 53) by lia.
  assert (Hpos : 0 < m) by (destruct m; simpl in Hd; lia).
  pose proof (Zdigits2_lower m Hpos) as Hlo. rewrite Hd in Hlo. exact Hlo.
Qed.

(** A number of at most 500 is rounded to a float that is not above 500. *)
Lemma round_quotient_not_above (n d : Z) :
  0 <= n -> 0 < d -> n <= 500 * d ->
  float_gt (round_quotient false n d) (double_of_int ceiling) = false.
Proof.
  intros Hn Hd Hle.
  destruct (Z.eq_dec n 0) as [-> | Hnz].
  { rewrite round_quotient_zero, double_of_ceiling. reflexivity. }
  pose proof (round_quotient_rounded false n d Hn Hd) as Hr.
  pose proof (round_quotient_valid false n d Hn Hd) as Hv.
  destruct (float_gt (round_quotient false n d) (double_of_int ceiling)) eqn:Eg;
    [exfalso | reflexivity].
  apply (above_ceiling_iff _ Hr Hv) in Eg.
  destruct (round_quotient_steps false n d ltac:(lia) Hd)
    as (s & n1 & m1 & m2 & n2 & Hs & Hn1 & Hn2 & Hlo & Hhi & C1 & B2 & X2 & E2 & C3 & Hres).
  assert (Hps : 0 < 2 ^ s) by (apply Z.pow_pos_nonneg; lia).
  assert (Hpn : 0 < 2 ^ n1) by (apply Z.pow_pos_nonneg; lia).
  assert (Hm1 : m1 * 2 ^ n1 <= 500 * 2 ^ s) by nia.
  (* the exponent is that of a number below 512 *)
  assert (He1 : n1 - s <= -44).
  { destruct (Z.le_gt_cases (n1 - s) (-44)) as [H | H]; [exact H | exfalso].
    pose proof (canonical_normal m1 (n1 - s) C1 ltac:(lia)) as H52.
    assert (Hpow : 2 ^ (9 + s) <= 2 ^ (52 + n1)) by (apply Z.pow_le_mono_r; lia).
    rewrite !Z.pow_add_r in Hpow by lia.
    change (2 ^ 9) with 512 in Hpow. nia. }
  remember (s - n1) as t eqn:Et.
  assert (Hs' : 2 ^ s = 2 ^ t * 2 ^ n1).
  { rewrite <- Z.pow_add_r by lia. f_equal. lia. }
  assert (Hpt : 0 < 2 ^ t) by (apply Z.pow_pos_nonneg; lia).
  assert (Hm1' : m1 <= 500 * 2 ^ t) by nia.
  assert (Hm2 : m2 <= 500 * 2 ^ t).
  { destruct (Z.eq_dec m1 (500 * 2 ^ t)) as [E | E]; [|lia].
    rewrite X2; [lia|]. nia. }
  set (m3 := m2 / 2 ^ n2) in *.
  assert (Ht' : 2 ^ t = 2 ^ n2 * 2 ^ (t - n2)).
  { rewrite <- Z.pow_add_r by lia. f_equal. lia. }
  assert (Hpn2 : 0 < 2 ^ n2) by (apply Z.pow_pos_nonneg; lia).
  assert (Hm3 : m3 <= 500 * 2 ^ (t - n2)) by nia.
  rewrite Hres in Eg.
  destruct m3 as [|m|m] eqn:Em3.
  - destruct Eg as [Eg | [_ Eg]]; [discriminate Eg|].
    unfold Qlt in Eg; simpl in Eg; lia.
  - assert (El : (n1 - s + n2 <=? emax - prec) = true)
      by (apply Z.leb_le; unfold emax, prec; lia).
    rewrite El in Eg. destruct Eg as [Eg | [_ Eg]]; [discriminate Eg|].
    replace (n1 - s + n2) with (- (t - n2)) in Eg by lia.
    pose proof (F2Q_le_neg m (t - n2) ltac:(lia) Hm3) as Hq.
    exact (Qlt_not_le _ _ Eg Hq).
  - destruct C3 as [C3 _]. lia.
Qed.

(** A number of at least [500 + 2 ^ -44], the float next to 500, is rounded
    to a float above 500 (or to infinity). *)
Lemma round_quotient_above (n d : Z) :
  0 < d -> (500 * 2 ^ 44 + 1) * d <= n * 2 ^ 44 ->
  float_gt (round_quotient false n d) (double_of_int ceiling) = true.
Proof.
  intros Hd Hge.
  assert (H44 : 2 ^ 44 = 17592186044416) by reflexivity.
  assert (Hn : 0 < n) by (rewrite H44 in Hge; nia).
  pose proof (round_quotient_rounded false n d ltac:(lia) Hd) as Hr.
  pose proof (round_quotient_valid false n d ltac:(lia) Hd) as Hv.
  apply (above_ceiling_iff _ Hr Hv).
  destruct (round_quotient_steps false n d Hn Hd)
    as (s & n1 & m1 & m2 & n2 & Hs & Hn1 & Hn2 & Hlo & Hhi & C1 & B2 & X2 & E2 & C3 & Hres).
  assert (Hps : 0 < 2 ^ s) by (apply Z.pow_pos_nonneg; lia).
  assert (Hpn : 0 < 2 ^ n1) by (apply Z.pow_pos_nonneg; lia).
  assert (Hpn2 : 0 < 2 ^ n2) by (apply Z.pow_pos_nonneg; lia).
  set (m3 := m2 / 2 ^ n2) in *.
  rewrite Hres.
  destruct (Z.le_gt_cases (n1 - s) (-44)) as [He1 | He1].
  - (* below 512: the mantissa itself is compared *)
    remember (s - n1 - 44) as u eqn:Eu.
    assert (Hs' : 2 ^ s = 2 ^ u * 2 ^ 44 * 2 ^ n1).
    { rewrite <- !Z.pow_add_r by lia. f_equal. lia. }
    assert (Hpu : 0 < 2 ^ u) by (apply Z.pow_pos_nonneg; lia).
    assert (Hm1 : (500 * 2 ^ 44 + 1) * 2 ^ u < m1 + 1).
    { rewrite H44 in *. nia. }
    assert (Ht : 2 ^ (s - n1) = 2 ^ u * 2 ^ 44).
    { rewrite <- Z.pow_add_r by lia. f_equal. lia. }
    assert (Hm2 : 500 * 2 ^ (s - n1) < m2) by (rewrite Ht, H44 in *; nia).
    assert (Ht' : 2 ^ (s - n1) = 2 ^ n2 * 2 ^ (s - n1 - n2)).
    { rewrite <- Z.pow_add_r by lia. f_equal. lia. }
    assert (Hm3 : 500 * 2 ^ (s - n1 - n2) < m3) by (subst m3; nia).
    assert (Hp3 : 0 < 2 ^ (s - n1 - n2)) by (apply Z.pow_pos_nonneg; lia).
    destruct m3 as [|m|m] eqn:Em3; try lia.
    assert (El : (n1 - s + n2 <=? emax - prec) = true)
      by (apply Z.leb_le; unfold emax, prec; lia).
    rewrite El. right. split; [reflexivity|].
    replace (n1 - s + n2) with (- (s - n1 - n2)) by lia.
    apply F2Q_gt_neg; [lia | exact Hm3].
  - (* 512 and more *)
    pose proof (canonical_normal m3 (n1 - s + n2) C3 ltac:(lia)) as H52.
    change (2 ^ 52) with 4503599627370496 in H52.
    destruct m3 as [|m|m] eqn:Em3; try lia.
    destruct (n1 - s + n2 <=? emax - prec); [|left; reflexivity].
    right. split; [reflexivity|].
    destruct (Z.le_gt_cases 0 (n1 - s + n2)) as [H0 | H0].
    + apply F2Q_gt_nonneg; [exact H0 | lia].
    + replace (n1 - s + n2) with (- (s - n1 - n2)) by lia.
      apply F2Q_gt_neg; [lia|].
      assert (Hpow : 2 ^ (s - n1 - n2) <= 2 ^ 43) by (apply Z.pow_le_mono_r; lia).
      change (2 ^ 43) with 8796093022208 in Hpow. lia.
Qed.

Lemma strtod_float (s : str) (N : Z) (k : nat) :
  PyFloat.strtod (PyFloat.transform s) = Some (N, k) ->
  PyFloat.float s = Some (PyFloat.of_decimal N k) /\ 0 <= N /\ 0 < 10 ^ Z.of_nat k.
Proof.
  intros H. unfold PyFloat.float. rewrite H. split; [reflexivity|].
  split; [exact (strtod_nonneg _ N k H) | apply Z.pow_pos_nonneg; lia].
Qed.

(** X11. The clamp goes by the number that is written.  When the kept digits
    and period write a number [N / 10 ^ k] of at most 500, the call returns
    that number as a float, never the fallback, and prints nothing. *)
Theorem written_number_at_most_500 (raw_text : str) (w : world) (N : Z) (k : nat) :
  PyFloat.strtod (PyFloat.transform (numeric_str raw_text)) = Some (N, k) ->
  N <= 500 * 10 ^ Z.of_nat k ->
  get_total_production_from_llm raw_text w
  = (Return (PyFloat (PyFloat.of_decimal N k)), w).
Proof.
  intros H Hle. destruct (strtod_float _ N k H) as (Hf & HN & Hd).
  apply (run_passed raw_text w _ Hf).
  unfold PyFloat.of_decimal. apply round_quotient_not_above; assumption.
Qed.

(** X12. When the kept digits and period write a number [N / 10 ^ k] of at
    least [500 + 2 ^ -44] (the float next above 500; 501 is such a number),
    the call prints the warning and returns the fallback 145. *)
Theorem written_number_above_500 (raw_text : str) (w : world) (N : Z) (k : nat) :
  PyFloat.strtod (PyFloat.transform (numeric_str raw_text)) = Some (N, k) ->
  (500 * 2 ^ 44 + 1) * 10 ^ Z.of_nat k <= N * 2 ^ 44 \/
  501 * 10 ^ Z.of_nat k <= N ->
  get_total_production_from_llm raw_text w
  = (Return (PyInt fallback), warned w).
Proof.
  intros H Hge. destruct (strtod_float _ N k H) as (Hf & HN & Hd).
  apply (run_clamped raw_text w _ Hf).
  unfold PyFloat.of_decimal. apply round_quotient_above; [exact Hd|].
  destruct Hge as [Hge | Hge]; [exact Hge|].
  assert (H44 : 2 ^ 44 = 17592186044416) by reflexivity.
  rewrite H44. nia.
Qed.

(** A quotient with a short binary expansion is not changed by the rounding. *)
Lemma round_quotient_exact (n d M j : Z) :
  0 < n -> 0 < d -> n <= 500 * d ->
  0 <= j <= 1074 -> 0 <= M < 2 ^ 53 -> n * 2 ^ j = M * d ->
  exists m e,
    round_quotient false n d = S754_finite false m e /\ e < 0 /\
    Zpos m * d = n * 2 ^ (- e).
Proof.
  intros Hn Hd Hle Hj HM Hdy.
  destruct (round_quotient_steps false n d Hn Hd)
    as (s & n1 & m1 & m2 & n2 & Hs & Hn1 & Hn2 & Hlo & Hhi & C1 & B2 & X2 & E2 & C3 & Hres).
  assert (Hps : 0 < 2 ^ s) by (apply Z.pow_pos_nonneg; lia).
  assert (Hpn : 0 < 2 ^ n1) by (apply Z.pow_pos_nonneg; lia).
  assert (Hpj : 0 < 2 ^ j) by (apply Z.pow_pos_nonneg; lia).
  assert (Hpn2 : 0 < 2 ^ n2) by (apply Z.pow_pos_nonneg; lia).
  assert (H53 : 2 ^ 53 = 9007199254740992) by reflexivity.
  (* in terms of M: m1 * 2^(n1+j) <= M * 2^s < (m1+1) * 2^(n1+j) *)
  assert (HloM : m1 * 2 ^ n1 * 2 ^ j <= M * 2 ^ s) by nia.
  assert (HhiM : M * 2 ^ s < (m1 + 1) * 2 ^ n1 * 2 ^ j) by nia.
  (* the exponent: that of a number of at most 500, and no coarser than 2^-j *)
  assert (Hm1 : m1 * 2 ^ n1 <= 500 * 2 ^ s) by nia.
  assert (He1 : n1 - s <= -44).
  { destruct (Z.le_gt_cases (n1 - s) (-44)) as [H | H]; [exact H | exfalso].
    pose proof (canonical_normal m1 (n1 - s) C1 ltac:(lia)) as H52.
    assert (Hpow : 2 ^ (9 + s) <= 2 ^ (52 + n1)) by (apply Z.pow_le_mono_r; lia).
    rewrite !Z.pow_add_r in Hpow by lia.
    change (2 ^ 9) with 512 in Hpow. nia. }
  assert (Hej : n1 + j <= s).
  { destruct (Z.le_gt_cases (n1 + j) s) as [H | H]; [exact H | exfalso].
    pose proof (canonical_normal m1 (n1 - s) C1 ltac:(lia)) as H52.
    assert (Hpow : 2 ^ (53 + s) <= 2 ^ (52 + n1 + j)) by (apply Z.pow_le_mono_r; lia).
    rewrite !Z.pow_add_r in Hpow by lia. rewrite H53 in *.
    change (2 ^ 52) with 4503599627370496 in *. nia. }
  remember (s - n1 - j) as u eqn:Eu.
  assert (Hs' : 2 ^ s = 2 ^ u * 2 ^ n1 * 2 ^ j).
  { rewrite <- !Z.pow_add_r by lia. f_equal. lia. }
  assert (Hpu : 0 < 2 ^ u) by (apply Z.pow_pos_nonneg; lia).
  assert (Em1 : m1 = M * 2 ^ u) by nia.
  assert (Em2 : m2 = m1).
  { apply X2. rewrite Em1, Hs'. nia. }
  set (m3 := m2 / 2 ^ n2) in *.
  assert (Ht' : 2 ^ (s - n1) = 2 ^ n2 * 2 ^ (s - n1 - n2)).
  { rewrite <- Z.pow_add_r by lia. f_equal. lia. }
  assert (Ht : 2 ^ (s - n1) = 2 ^ u * 2 ^ j).
  { rewrite <- Z.pow_add_r by lia. f_equal. lia. }
  assert (Hp3 : 0 < 2 ^ (s - n1 - n2)) by (apply Z.pow_pos_nonneg; lia).
  (* m3 * d = n * 2^(s - n1 - n2) *)
  assert (Hval : m3 * d = n * 2 ^ (s - n1 - n2)).
  { assert (H1 : m2 * d * 2 ^ j = n * 2 ^ j * (2 ^ u * 2 ^ j)).
    { rewrite Em2, Em1, Hdy. ring. }
    rewrite <- Ht, Ht' in H1.
    assert (H2 : 2 ^ n2 * m3 * d * 2 ^ j = 2 ^ n2 * (n * 2 ^ (s - n1 - n2)) * 2 ^ j).
    { rewrite <- E2. rewrite H1. ring. }
    nia. }
  rewrite Hres.
  destruct m3 as [|m|m] eqn:Em3.
  - exfalso. nia.
  - assert (El : (n1 - s + n2 <=? emax - prec) = true)
      by (apply Z.leb_le; unfold emax, prec; lia).
    rewrite El. exists m, (n1 - s + n2). split; [reflexivity|]. split; [lia|].
    replace (- (n1 - s + n2)) with (s - n1 - n2) by lia. exact Hval.
  - exfalso. nia.
Qed.

(** X13. A written number of at most 500 that has a short binary expansion
    ([N / 10 ^ k = M / 2 ^ j] with [M] below [2 ^ 53]: every whole number,
    146.5, 0.25, ...) is returned exactly: the float the call returns,
    times [10 ^ k], is [N]. *)
Theorem written_dyadic_number_exact (raw_text : str) (w : world)
    (N : Z) (k : nat) (M j : Z) :
  PyFloat.strtod (PyFloat.transform (numeric_str raw_text)) = Some (N, k) ->
  N <= 500 * 10 ^ Z.of_nat k ->
  0 <= j <= 1074 -> 0 <= M < 2 ^ 53 -> N * 2 ^ j = M * 10 ^ Z.of_nat k ->
  exists v,
    get_total_production_from_llm raw_text w = (Return (PyFloat v), w) /\
    (F2Q v * inject_Z (10 ^ Z.of_nat k) == inject_Z N)%Q.
Proof.
  intros H Hle Hj HM Hdy. destruct (strtod_float _ N k H) as (Hf & HN & Hd).
  exists (PyFloat.of_decimal N k).
  split.
  { apply (run_passed raw_text w _ Hf).
    unfold PyFloat.of_decimal. apply round_quotient_not_above; assumption. }
  unfold PyFloat.of_decimal.
  destruct (Z.eq_dec N 0) as [-> | Hnz].
  - rewrite round_quotient_zero. unfold Qeq; simpl. reflexivity.
  - destruct (round_quotient_exact N (10 ^ Z.of_nat k) M j ltac:(lia) Hd Hle Hj HM Hdy)
      as (m & e & -> & He & Hval).
    destruct e as [|p|p]; try lia.
    cbn [F2Q cond_Zopp]. unfold Qeq, Qmult. cbn [Qnum Qden inject_Z].
    rewrite Pos.mul_1_r, Pos2Z.inj_pow, Z.mul_1_r.
    cbn [Z.opp] in Hval. exact Hval.
Qed.

(** * The theorems at concrete inputs *)

Lemma usual_reply_is_extraction_witness :
  get_total_production_from_llm_response kind_text
    (reply 500 (JStr (str_of "146.5 million tons"))) w0
  = of_M (get_total_production_from_llm (str_of "146.5 million tons"))
      (logged w0 (preamble kind_text (reply 500 (JStr (str_of "146.5 million tons")))
                  ++ [raw_output_line kind_text (JStr (str_of "146.5 million tons"))])).
Proof.
  eapply usual_reply_is_extraction; reflexivity.
Defined.

Lemma call_within_ceiling_witness :
  num_is_finite (PyInt 145) = true /\
  (0 <= num_value (PyInt 145))%Q /\ (num_value (PyInt 145) <= inject_Z ceiling)%Q.
Proof.
  apply (call_within_ceiling kind_text (reply 200 (JStr (str_of "about 1,200"))) w0).
  vm_compute. reflexivity.
Defined.

Lemma error_reply_raises_witness :
  get_total_production_from_llm_response kind_text
    {| status_code := 401; text := [];
       json_body := Some (JDict [(str_of "error", JStr (str_of "No auth"));
                                 (str_of "choices", JList [])]) |} w0
  = (Exc (ValueError_API_error (JStr (str_of "No auth"))),
     logged w0 (preamble kind_text
                  {| status_code := 401; text := [];
                     json_body := Some (JDict [(str_of "error", JStr (str_of "No auth"));
                                               (str_of "choices", JList [])]) |})).
Proof.
  eapply (proj2 (error_reply_raises kind_text)); reflexivity.
Defined.

Lemma non_object_body_witness :
  fst (get_total_production_from_llm_response kind_text
         {| status_code := 500; text := [];
            json_body := Some (JStr (str_of "Internal server error")) |} w0)
  = Exc TypeError.
Proof.
  rewrite (non_object_body kind_text _ w0 (JStr (str_of "Internal server error")));
    reflexivity.
Defined.

Lemma missing_choice_or_message_witness :
  get_total_production_from_llm_response kind_text
    {| status_code := 200; text := [];
       json_body := Some (JDict [(str_of "choices", JList [])]) |} w0
  = (Exc IndexError,
     logged w0 (preamble kind_text
                  {| status_code := 200; text := [];
                     json_body := Some (JDict [(str_of "choices", JList [])]) |})).
Proof.
  eapply (proj1 (missing_choice_or_message kind_text)); reflexivity.
Defined.

Lemma non_string_content_witness :
  get_total_production_from_llm_response kind_text (reply 200 JNull) w0
  = (Exc TypeError,
     logged w0 (preamble kind_text (reply 200 JNull)
                ++ [raw_output_line kind_text JNull])).
Proof.
  eapply (proj1 (non_string_content kind_text (reply 200 JNull) w0 _ _ _ _ JNull
                   eq_refl eq_refl eq_refl eq_refl eq_refl)).
  reflexivity.
Defined.

Lemma main_arithmetic_never_fails_witness :
  match fst (main "rice" 10 (str_of "146.5 million tons") w0) with
  | Return (Some r) =>
      extract_estimate (str_of "146.5 million tons") w0
        = Return (total_production_million r) /\
      (num_value (total_production_million r) <= inject_Z ceiling)%Q /\
      num_is_finite (total_production_tons r) = true /\
      (0 <= num_value (total_production_tons r))%Q /\
      num_is_finite (per_centre r) = true /\
      (0 <= num_value (per_centre r))%Q
  | Return None => False
  | Raise e =>
      extract_estimate (str_of "146.5 million tons") w0 = Raise e /\
      (e = ValueError_no_numeric_value \/ exists s, e = ValueError_float s)
  end.
Proof.
  apply (main_arithmetic_never_fails "rice" 10 (str_of "146.5 million tons") w0).
  split; reflexivity.
Defined.

Lemma typed_padding_ignored_witness :
  main_run kind_text ascii_lower Z Z.eqb
    (str_of "  " ++ str_of "Rice" ++ [10%N]) sheet2 sheet1
    (reply 200 (JStr (str_of "146.5")))
  = main_run kind_text ascii_lower Z Z.eqb (str_of "Rice") sheet2 sheet1
      (reply 200 (JStr (str_of "146.5"))).
Proof.
  apply (typed_padding_ignored kind_text ascii_lower Z Z.eqb
           (str_of "  ") (str_of "Rice") [10%N]).
  - apply (Forall_by_forallb Unicode.isspace). vm_compute. reflexivity.
  - apply (Forall_by_forallb Unicode.isspace). vm_compute. reflexivity.
Defined.

Lemma first_matching_row_decides_witness :
  main_run kind_text ascii_lower Z Z.eqb (str_of "rice")
    ([{| Name := str_of "Wheat"; commod_HS_Code := 1001 |}]
     ++ {| Name := str_of "RICE"; commod_HS_Code := 1006 |}
        :: [{| Name := str_of "Rice"; commod_HS_Code := 9999 |}])
    sheet1 (reply 200 (JStr (str_of "146.5")))
  = main_run kind_text ascii_lower Z Z.eqb (str_of "rice")
      [{| Name := str_of "RICE"; commod_HS_Code := 1006 |}]
      sheet1 (reply 200 (JStr (str_of "146.5"))).
Proof.
  apply (first_matching_row_decides kind_text ascii_lower Z Z.eqb (str_of "rice")).
  - repeat constructor. vm_compute. discriminate.
  - vm_compute. reflexivity.
Defined.

Lemma run_fails_only_in_the_call_witness :
  match fst (main_run kind_text ascii_lower Z Z.eqb (str_of " Rice ") sheet2 sheet1
               (reply 200 (JStr (str_of "146.5 million tons"))) w0) with
  | Ok (Some s) =>
      fst (get_total_production_from_llm_response kind_text
             (reply 200 (JStr (str_of "146.5 million tons"))) w0)
        = Ok (total_production_million s) /\
      (num_value (total_production_million s) <= inject_Z ceiling)%Q /\
      num_is_finite (total_production_tons s) = true /\
      (0 <= num_value (total_production_tons s))%Q /\
      num_is_finite (per_centre s) = true /\
      (0 <= num_value (per_centre s))%Q
  | Ok None => True
  | Exc e =>
      fst (get_total_production_from_llm_response kind_text
             (reply 200 (JStr (str_of "146.5 million tons"))) w0) = Exc e
  end.
Proof.
  apply (run_fails_only_in_the_call kind_text ascii_lower Z Z.eqb (str_of " Rice ")
           sheet2 sheet1 (reply 200 (JStr (str_of "146.5 million tons"))) w0).
  reflexivity.
Defined.

Lemma written_number_at_most_500_witness :
  get_total_production_from_llm (str_of "about 499.99 Mt") w0
  = (Return (PyFloat (PyFloat.of_decimal 49999 2)), w0).
Proof.
  apply (written_number_at_most_500 (str_of "about 499.99 Mt") w0 49999 2).
  - vm_compute. reflexivity.
  - vm_compute. discriminate.
Defined.

Lemma written_number_above_500_witness :
  get_total_production_from_llm (str_of "500.0000000000001") w0
  = (Return (PyInt fallback), warned w0).
Proof.
  apply (written_number_above_500 (str_of "500.0000000000001") w0
           5000000000000001 13).
  - vm_compute. reflexivity.
  - left. vm_compute. discriminate.
Defined.

Lemma written_dyadic_number_exact_witness :
  exists v,
    get_total_production_from_llm (str_of "146.5 million tons") w0
    = (Return (PyFloat v), w0) /\
    (F2Q v * inject_Z (10 ^ Z.of_nat 1) == inject_Z 1465)%Q.
Proof.
  apply (written_dyadic_number_exact (str_of "146.5 million tons") w0 1465 1 293 1).
  - vm_compute. reflexivity.
  - vm_compute. discriminate.
  - lia.
  - split; [lia | reflexivity].
  - reflexivity.
Defined.

Lemma kept_items_join_witness :
  exists s,
    join [JStr (str_of "12"); JStr (str_of "."); JStr (str_of "5")] = Ok s /\
    forallb keep s = true.
Proof.
  apply (kept_items_join
           [JStr (str_of "12"); JStr (str_of "tons"); JStr (str_of ".");
            JStr (str_of "5")]).
  vm_compute. reflexivity.
Defined.
